(** * The timed-message plugin of [src/main.py]

    A shallow embedding of [TimedMessagePlugin]: the configuration entries,
    the file that persists them, the registry of timer tasks, the command
    handlers and the per-entry timer loop, followed by the properties the
    specification states about them.

    Conventions of the embedding.
    - A Python [str] is the Rocq [string] of its UTF-8 bytes, so the
      Chinese captions of the source are kept as they are written.  Python
      counts characters (code points) where it measures or slices a [str]:
      [PyStr.len] and [PyStr.slice_to] do so on the bytes.  Splitting at a
      space, comparing and concatenating are the same on bytes and on
      characters.
    - A [date] is its proleptic Gregorian ordinal ([date.toordinal()]),
      between [MINORDINAL] and [MAXORDINAL]; a [timedelta] is a number of
      microseconds.
    - An exception is a value of [exn]; code that can raise returns a
      [result].
    - Everything the handlers mutate ([self.scheduled_messages],
      [self.tasks], the event loop's tasks, the configuration file, the log)
      is one record [plugin] threaded through the operations. *)

From Stdlib Require Import ZArith String Ascii List Bool Lia.
From stdpp Require Import base option list gmap strings pretty.

Local Open Scope string_scope.
Local Open Scope Z_scope.

(** ** Exceptions

    The exceptions met here all derive from [Exception], the class the
    [except] clauses of the source catch.  The cancellation of a task is
    not among them: it is an outcome of the sleep it interrupts
    ([sleep_end] below). *)

Inductive exn : Type :=
  | ValueError
  | TypeError
  | OverflowError
  | OSError
  | OtherException (what : string).

Inductive result (A : Type) : Type :=
  | Ok (a : A)
  | Raise (e : exn).

Arguments Ok {A} a.
Arguments Raise {A} e.

Global Instance result_ret : MRet result := λ A a, Ok a.

Global Instance result_bind : MBind result := λ A B k r,
  match r with
  | Ok a => k a
  | Raise e => Raise e
  end.

(** ** The [str] operations the source uses *)

Module PyStr.

Definition nl : string := String (ascii_of_nat 10) EmptyString.

(** [s.partition(' ')], as far as [split] needs it: the text before the
    first space and the text after it, when there is a space. *)
Fixpoint cut_at_space (s : string) : option (string * string) :=
  match s with
  | EmptyString => None
  | String c s' =>
      if Ascii.eqb c " "%char then Some (EmptyString, s')
      else match cut_at_space s' with
           | Some (a, b) => Some (String c a, b)
           | None => None
           end
  end.

(** [s.split(' ', maxsplit)]: at most [maxsplit] cuts, leftmost first;
    empty fields between adjacent spaces are kept. *)
Fixpoint split (maxsplit : nat) (s : string) : list string :=
  match maxsplit with
  | O => [s]
  | S k =>
      match cut_at_space s with
      | Some (a, b) => a :: split k b
      | None => [s]
      end
  end.

(** In UTF-8 the bytes [10xxxxxx] continue a character; every other byte
    starts one. *)
Definition is_continuation (c : ascii) : bool :=
  let n := N_of_ascii c in ((128 <=? n) && (n <? 192))%N.

(** [len(s)]: the number of characters. *)
Fixpoint len (s : string) : nat :=
  match s with
  | EmptyString => O
  | String c s' => if is_continuation c then len s' else S (len s')
  end.

(** [s[:n]]: the first [n] characters, each with all its bytes. *)
Fixpoint slice_to (n : nat) (s : string) : string :=
  match s with
  | EmptyString => EmptyString
  | String c s' =>
      if is_continuation c then String c (slice_to n s')
      else match n with
           | O => EmptyString
           | S k => String c (slice_to k s')
           end
  end.

End PyStr.

(** ** [datetime.time], [datetime.date], [datetime.datetime] *)

Module PyTime.

(** [tzinfo] is the UTC offset in microseconds of an aware time, [None]
    for a naive one. *)
Record time : Type := mk_time {
  hour : Z;
  minute : Z;
  second : Z;
  microsecond : Z;
  tzinfo : option Z
}.

Definition MINORDINAL : Z := 1.
Definition MAXORDINAL : Z := 3652059.   (* date(9999, 12, 31).toordinal() *)

Record datetime : Type := mk_datetime {
  dt_date : Z;
  dt_time : time
}.

(** [datetime.combine(d, t)] keeps the [tzinfo] of [t]. *)
Definition combine (d : Z) (t : time) : datetime := mk_datetime d t.

(** [dt.date()] *)
Definition date_of (dt : datetime) : Z := dt_date dt.

(** [dt.time()]: the time of day, with the [tzinfo] dropped. *)
Definition time_of (dt : datetime) : time :=
  let t := dt_time dt in
  mk_time (hour t) (minute t) (second t) (microsecond t) None.

(** Comparison of tuples of integers, leftmost component first. *)
Fixpoint cmp_tuple (a b : list Z) : comparison :=
  match a, b with
  | [], [] => Eq
  | [], _ :: _ => Lt
  | _ :: _, [] => Gt
  | x :: a', y :: b' =>
      match x ?= y with
      | Eq => cmp_tuple a' b'
      | c => c
      end
  end.

Definition us_per_minute : Z := 60000000.
Definition us_per_day : Z := 86400000000.

(** [time._cmp]: naive times compare field by field, aware times after
    moving both to UTC (to the minute, as the library does), and a naive
    time cannot be ordered against an aware one. *)
Definition time_cmp (a b : time) : result comparison :=
  match tzinfo a, tzinfo b with
  | None, None =>
      Ok (cmp_tuple [hour a; minute a; second a; microsecond a]
                    [hour b; minute b; second b; microsecond b])
  | Some oa, Some ob =>
      if oa =? ob then
        Ok (cmp_tuple [hour a; minute a; second a; microsecond a]
                      [hour b; minute b; second b; microsecond b])
      else
        Ok (cmp_tuple
              [hour a * 60 + minute a - oa / us_per_minute; second a; microsecond a]
              [hour b * 60 + minute b - ob / us_per_minute; second b; microsecond b])
  | _, _ => Raise TypeError
  end.

(** [a >= b] and [a < b] on times. *)
Definition time_ge (a b : time) : result bool :=
  c ← time_cmp a b;
  Ok (match c with Lt => false | _ => true end).

Definition time_lt (a b : time) : result bool :=
  c ← time_cmp a b;
  Ok (match c with Lt => true | _ => false end).

(** [dt + timedelta(days=n)]: the date moves, the time of day stays; a
    date outside the supported range raises [OverflowError]. *)
Definition add_days (dt : datetime) (n : Z) : result datetime :=
  let d := dt_date dt + n in
  if (MINORDINAL <=? d) && (d <=? MAXORDINAL)
  then Ok (mk_datetime d (dt_time dt))
  else Raise OverflowError.

Definition us_of_day (t : time) : Z :=
  ((hour t * 60 + minute t) * 60 + second t) * 1000000 + microsecond t.

(** [a - b] on datetimes, in microseconds; mixing a naive and an aware
    datetime raises [TypeError]. *)
Definition dt_sub (a b : datetime) : result Z :=
  let base := (dt_date a - dt_date b) * us_per_day
              + (us_of_day (dt_time a) - us_of_day (dt_time b)) in
  match tzinfo (dt_time a), tzinfo (dt_time b) with
  | None, None => Ok base
  | Some oa, Some ob => Ok (base - oa + ob)
  | _, _ => Raise TypeError
  end.

(** *** Calendar dates, for writing concrete instants *)

Definition is_leap (y : Z) : bool :=
  (y mod 4 =? 0) && (negb (y mod 100 =? 0) || (y mod 400 =? 0)).

Definition days_before_year (y : Z) : Z :=
  let y' := y - 1 in y' * 365 + y' / 4 - y' / 100 + y' / 400.

Definition days_before_month (y m : Z) : Z :=
  nth (Z.to_nat m) [0; 0; 31; 59; 90; 120; 151; 181; 212; 243; 273; 304; 334] 0
  + (if (2 <? m) && is_leap y then 1 else 0).

(** [date(y, m, d).toordinal()] *)
Definition ymd2ord (y m d : Z) : Z :=
  days_before_year y + days_before_month y m + d.

(** A naive datetime written year, month, day, hour, minute. *)
Definition at_ymd_hm (y m d hh mm : Z) : datetime :=
  mk_datetime (ymd2ord y m d) (mk_time hh mm 0 0 None).

(** *** [time.fromisoformat]

    The parser belongs to the Python standard library, not to the
    repository.  It is transcribed from the C implementation of CPython 3.11
    ([time_fromisoformat] and the functions it calls in
    [Modules/_datetimemodule.c]), on the UTF-8 bytes of the argument.  A C
    pointer into the text is the text from that position on, together with
    the distance to the end of the part being read where the C code
    compares pointers; reading at the end of the text gives the terminator
    [NUL].  [None] stands for the [ValueError] the library raises. *)

Definition NUL : ascii := "000"%char.

(** [*p] and [p + 1] *)
Definition peek (s : string) : ascii :=
  match s with
  | String c _ => c
  | EmptyString => NUL
  end.

Definition advance (s : string) : string :=
  match s with
  | String _ s' => s'
  | EmptyString => EmptyString
  end.

Definition digit (c : ascii) : option Z :=
  let n := Z.of_N (N_of_ascii c) in
  if (48 <=? n) && (n <=? 57) then Some (n - 48) else None.

(** [parse_digits]: exactly [num_digits] digits, added to [var] from the
    left; the text after them. *)
Fixpoint parse_digits (num_digits : nat) (var : Z) (s : string) : option (Z * string) :=
  match num_digits with
  | O => Some (var, s)
  | S n =>
      match s with
      | String c s' =>
          match digit c with
          | Some x => parse_digits n (10 * var + x) s'
          | None => None
          end
      | EmptyString => None
      end
  end.

(** [while (is_digit( *p )) ++p] *)
Fixpoint skip_digits (s : string) : string :=
  match s with
  | String c s' => if is_Some_dec (digit c) then skip_digits s' else s
  | EmptyString => EmptyString
  end.

(** The loop of [parse_hh_mm_ss_ff] over hour, minute and second, with [n]
    of them still to read and [len] bytes left before the end of the part.
    The first character after the hour decides whether the fields are
    separated by colons.  The loop either returns (with the C function's
    result: whether text is left over), or goes on to the fraction at the
    position it gives. *)
Fixpoint parse_hh_mm_ss (n : nat) (first has_separator : bool) (s : string) (len : Z)
    : option (list Z * (bool + string * Z)) :=
  match n with
  | O => Some ([], inr (s, len))
  | S n' =>
      '(v, s1) ← parse_digits 2 0 s;
      let c := peek s1 in
      let has_separator := if first then Ascii.eqb c ":" else has_separator in
      if len - 3 <=? 0 then Some ([v], inl (negb (Ascii.eqb c NUL)))
      else
        '(vs, next) ←
          (if has_separator && Ascii.eqb c ":"
           then parse_hh_mm_ss n' false has_separator (advance s1) (len - 3)
           else if Ascii.eqb c "." || Ascii.eqb c ","
           then Some ([], inr (advance s1, len - 3))
           else if negb has_separator
           then parse_hh_mm_ss n' false has_separator s1 (len - 2)
           else None);
        Some (v :: vs, next)
  end.

(** The fraction: up to six digits, scaled to microseconds; further digits
    are skipped. *)
Definition parse_ff (s : string) (len : Z) : option (Z * bool) :=
  let to_parse := Z.to_nat (Z.min len 6) in
  '(us, s1) ← parse_digits to_parse 0 s;
  Some (us * 10 ^ (6 - Z.of_nat to_parse),
        negb (Ascii.eqb (peek (skip_digits s1)) NUL)).

(** [parse_hh_mm_ss_ff]: the four fields, and whether text is left over. *)
Definition parse_hh_mm_ss_ff (s : string) (len : Z) : option (Z * Z * Z * Z * bool) :=
  '(vs, next) ← parse_hh_mm_ss 3 true true s len;
  let hh := nth 0 vs 0 in
  let mm := nth 1 vs 0 in
  let ss := nth 2 vs 0 in
  match next with
  | inl rv => Some (hh, mm, ss, 0, rv)
  | inr (s', len') => '(us, rv) ← parse_ff s' len'; Some (hh, mm, ss, us, rv)
  end.

Definition is_tz_char (c : ascii) : bool :=
  Ascii.eqb c "Z" || Ascii.eqb c "+" || Ascii.eqb c "-".

(** The position of the first ['Z'], ['+'] or ['-'], and the text from
    there on (empty when there is none). *)
Fixpoint tzinfo_pos (s : string) : nat * string :=
  match s with
  | EmptyString => (O, EmptyString)
  | String c s' =>
      if is_tz_char c then (O, s)
      else let '(n, tz) := tzinfo_pos s' in (S n, tz)
  end.

(** [parse_isoformat_time]: the fields of the time, and the offset when
    there is one, in seconds and microseconds.  Text left over after the
    time is an error only when no offset follows. *)
Definition parse_isoformat_time (s : string)
    : option (Z * Z * Z * Z * option (Z * Z)) :=
  let n := fst (tzinfo_pos s) in
  let tz := snd (tzinfo_pos s) in
  '(hh, mm, ss, us, rv) ← parse_hh_mm_ss_ff s (Z.of_nat n);
  match tz with
  | EmptyString => if (rv : bool) then None else Some (hh, mm, ss, us, None)
  | String c tzstr =>
      if Ascii.eqb c "Z" then
        if Ascii.eqb (peek tzstr) NUL then Some (hh, mm, ss, us, Some (0, 0))
        else None
      else
        let tzsign := if Ascii.eqb c "-" then -1 else 1 in
        '(tzhour, tzminute, tzsecond, tzus, rv) ←
          parse_hh_mm_ss_ff tzstr (Z.of_nat (String.length tzstr));
        if (rv : bool) then None
        else Some (hh, mm, ss, us,
                   Some (tzsign * (tzhour * 3600 + tzminute * 60 + tzsecond),
                         tzsign * tzus))
  end.

(** [tzinfo_from_isoformat_results]: an offset of zero seconds is UTC; any
    other must lie strictly within a day, as [timezone] demands. *)
Definition tzinfo_from_isoformat_results (tz : option (Z * Z)) : option (option Z) :=
  match tz with
  | None => Some None
  | Some (tzoffset, tzus) =>
      if tzoffset =? 0 then Some (Some 0)
      else
        let off := tzoffset * 1000000 + tzus in
        if (- us_per_day <? off) && (off <? us_per_day) then Some (Some off)
        else None
  end.

(** [time.fromisoformat]: a leading ['T'] is dropped; the range checks of
    the fields are those of the [time] constructor. *)
Definition fromisoformat (s : string) : option time :=
  let s := if Ascii.eqb (peek s) "T" then advance s else s in
  '(hh, mm, ss, us, tz) ← parse_isoformat_time s;
  tzi ← tzinfo_from_isoformat_results tz;
  if (0 <=? hh) && (hh <? 24) && (0 <=? mm) && (mm <? 60)
     && (0 <=? ss) && (ss <? 60) && (0 <=? us) && (us <? 1000000)
  then Some (mk_time hh mm ss us tzi)
  else None.

End PyTime.

Import PyTime.

(** ** Configuration entries and the log *)

(** One element of [self.scheduled_messages]: the dictionary built by
    [add_timed_message], or read back from the configuration file.  The key
    ['enabled'] may be missing from a stored entry, which the source reads
    with [msg.get('enabled', True)]. *)
Record msg_config : Type := mk_msg_config {
  cfg_id : string;
  cfg_group_id : string;
  cfg_time : string;
  cfg_message : string;
  cfg_enabled : option bool;
  cfg_created_at : string
}.

(** [msg.get('enabled', True)] *)
Definition get_enabled (msg : msg_config) : bool := default true (cfg_enabled msg).

(** [msg['enabled'] = b] *)
Definition set_enabled (b : bool) (msg : msg_config) : msg_config :=
  mk_msg_config (cfg_id msg) (cfg_group_id msg) (cfg_time msg) (cfg_message msg)
                (Some b) (cfg_created_at msg).

Inductive level : Type := INFO | ERROR.

(** What the [logger] calls of the source report, one constructor per call
    site. *)
Inductive log_event : Type :=
  | InitDone
  | ConfigLoaded (n : nat)
  | LoadFailed (e : exn)
  | SaveFailed (e : exn)
  | TaskStarted (task_id : string)
  | TaskWillRun (task_id : string) (wait_us : Z)
  | TaskCancelled (task_id : string)
  | TaskError (task_id : string) (e : exn)
  | Sending (group_id message : string)
  | SendFailed (e : exn)
  | Terminated.

Definition log_record : Type := level * log_event.

(** ** The configuration file *)

(** What [json.load] finds in the file: a list of entries, or text it cannot
    decode. *)
Inductive file_content : Type :=
  | Malformed
  | Document (entries : list msg_config).

(** The file at [self.config_file]: its content when it exists, and whether
    opening it for writing succeeds. *)
Record disk : Type := mk_disk {
  file : option file_content;
  writable : bool
}.

(** ** Timer tasks *)

(** A task made by [asyncio.create_task]: [Running] until it is cancelled or
    its coroutine returns.  A task whose [cancel()] was called receives
    [CancelledError] at the [asyncio.sleep] it is suspended in, before any
    other statement of its loop runs, so it is counted as [Cancelled] from
    the call on. *)
Inductive task_status : Type := Running | Cancelled | Finished.

Global Instance task_status_eq_dec : EqDecision task_status.
Proof. solve_decision. Defined.

(** The loop only reads the keys ['id'], ['time'], ['group_id'] and
    ['message'] of the dictionary it was started with; no handler ever
    changes these, so the task holds its own copy. *)
Record task : Type := mk_task {
  task_config : msg_config;
  task_status_of : task_status
}.

(** ** Plugin state *)

Record plugin : Type := mk_plugin {
  config_file : disk;
  tasks : gmap string nat;
  scheduled_messages : list msg_config;
  (** every task ever created on the event loop, in creation order; a value
      of [tasks] is an index into this list *)
  loop_tasks : list task;
  log : list log_record
}.

(** [TimedMessagePlugin.__init__] *)
Definition init (d : disk) : plugin := mk_plugin d ∅ [] [] [].

Definition with_file (f : option file_content) (p : plugin) : plugin :=
  mk_plugin (mk_disk f (writable (config_file p))) (tasks p)
            (scheduled_messages p) (loop_tasks p) (log p).

Definition with_tasks (t : gmap string nat) (p : plugin) : plugin :=
  mk_plugin (config_file p) t (scheduled_messages p) (loop_tasks p) (log p).

Definition with_messages (l : list msg_config) (p : plugin) : plugin :=
  mk_plugin (config_file p) (tasks p) l (loop_tasks p) (log p).

Definition with_loop_tasks (ts : list task) (p : plugin) : plugin :=
  mk_plugin (config_file p) (tasks p) (scheduled_messages p) ts (log p).

Definition logger (lv : level) (ev : log_event) (p : plugin) : plugin :=
  mk_plugin (config_file p) (tasks p) (scheduled_messages p) (loop_tasks p)
            (log p ++ [(lv, ev)]).

(** ** Persistence *)

(** [save_config]: the whole list replaces the file; a failure to write is
    logged and goes no further. *)
Definition save_config (p : plugin) : plugin :=
  if writable (config_file p)
  then with_file (Some (Document (scheduled_messages p))) p
  else logger ERROR (SaveFailed OSError) p.

(** [load_config] *)
Definition load_config (p : plugin) : plugin :=
  match file (config_file p) with
  | Some (Document entries) =>
      logger INFO (ConfigLoaded (length entries)) (with_messages entries p)
  | Some Malformed =>
      with_messages [] (logger ERROR (LoadFailed ValueError) p)
  | None =>
      save_config (with_messages [] p)
  end.

(** ** Starting and stopping timers *)

(** [task.cancel()]: a running task becomes cancelled; a task that is
    already done is left as it is. *)
Definition cancel_task (t : task) : task :=
  match task_status_of t with
  | Running => mk_task (task_config t) Cancelled
  | _ => t
  end.

Definition cancel (h : nat) (p : plugin) : plugin :=
  with_loop_tasks (alter cancel_task h (loop_tasks p)) p.

(** [asyncio.create_task(self.timed_message_loop(msg_config))]: the new task
    and its handle. *)
Definition create_task (msg : msg_config) (p : plugin) : nat * plugin :=
  (length (loop_tasks p),
   with_loop_tasks (loop_tasks p ++ [mk_task msg Running]) p).

(** [start_single_task] *)
Definition start_single_task (msg : msg_config) (p : plugin) : plugin :=
  let task_id := cfg_id msg in
  let p1 := match tasks p !! task_id with
            | Some h => cancel h p
            | None => p
            end in
  let '(h', p2) := create_task msg p1 in
  logger INFO (TaskStarted task_id) (with_tasks (<[task_id := h']> (tasks p2)) p2).

(** The statements both [delete_timed_message] and [toggle_timed_message]
    use to stop a timer:
    [if msg_id in self.tasks: self.tasks[msg_id].cancel(); del self.tasks[msg_id]]. *)
Definition stop_task (msg_id : string) (p : plugin) : plugin :=
  match tasks p !! msg_id with
  | Some h => let p1 := cancel h p in with_tasks (delete msg_id (tasks p1)) p1
  | None => p
  end.

(** [start_all_tasks]: the loop over [self.scheduled_messages]. *)
Fixpoint start_tasks (l : list msg_config) (p : plugin) : plugin :=
  match l with
  | [] => p
  | msg :: l' =>
      start_tasks l' (if get_enabled msg then start_single_task msg p else p)
  end.

Definition start_all_tasks (p : plugin) : plugin :=
  start_tasks (scheduled_messages p) p.

(** [initialize] *)
Definition initialize (p : plugin) : plugin :=
  logger INFO InitDone (start_all_tasks (load_config p)).

(** [terminate]: every task in [self.tasks] is cancelled; the dictionary
    itself is left as it is. *)
Definition terminate (p : plugin) : plugin :=
  logger INFO Terminated
    (foldr (λ kv q, cancel (snd kv) q) p (map_to_list (tasks p))).

(** ** The timer loop *)

(** The computation of [next_run] in [timed_message_loop]: today's date at
    [target_time], or the date of [now + timedelta(days=1)] at
    [target_time] when [current_time >= target_time]. *)
Definition next_run (now : datetime) (target_time : time) : result datetime :=
  let current_time := time_of now in
  let today := combine (date_of now) target_time in
  ge ← time_ge current_time target_time;
  if ge : bool then
    tomorrow ← add_days now 1;
    Ok (combine (date_of tomorrow) target_time)
  else Ok today.

(** How the [await asyncio.sleep(wait_seconds)] of one pass ends. *)
Inductive sleep_end : Type := Elapsed | CancelledAsleep.

(** What one pass of the loop meets: the clock it reads, how its sleep ends,
    and how the body of the [try] in [send_timed_message] ends once it has
    announced the message (today that body only logs; the call to the
    transport is what the comments of the source leave room for). *)
Record pass : Type := mk_pass {
  pass_now : datetime;
  pass_sleep : sleep_end;
  pass_send : result unit
}.

(** [send_timed_message]: whatever the body raises is logged and dropped. *)
Definition send_timed_message (msg : msg_config) (outcome : result unit)
  : list log_record :=
  (INFO, Sending (cfg_group_id msg) (cfg_message msg))
  :: match outcome with
     | Ok _ => []
     | Raise e => [(ERROR, SendFailed e)]
     end.

(** Lines 65 to 76: the target, the next run and the time to wait (in
    microseconds). *)
Definition schedule (msg : msg_config) (now : datetime) : result (datetime * Z) :=
  target_time ← match fromisoformat (cfg_time msg) with
                | Some t => Ok t
                | None => Raise ValueError
                end;
  next ← next_run now target_time;
  wait ← dt_sub next now;
  Ok (next, wait).

(** How far the loop has got when the passes it was given are used up. *)
Inductive loop_state : Type :=
  | Looping
  | LoopCancelled
  | LoopFailed (e : exn).

(** [timed_message_loop], run against the passes the environment offers. *)
Fixpoint timed_message_loop (msg : msg_config) (env : list pass)
  : list log_record * loop_state :=
  match env with
  | [] => ([], Looping)
  | ps :: env' =>
      match schedule msg (pass_now ps) with
      | Raise e => ([(ERROR, TaskError (cfg_id msg) e)], LoopFailed e)
      | Ok (_, wait) =>
          let announce := (INFO, TaskWillRun (cfg_id msg) wait) in
          match pass_sleep ps with
          | CancelledAsleep =>
              ([announce; (INFO, TaskCancelled (cfg_id msg))], LoopCancelled)
          | Elapsed =>
              let sent := send_timed_message msg (pass_send ps) in
              let '(later, st) := timed_message_loop msg env' in
              (announce :: sent ++ later, st)
          end
      end
  end.

(** ** Command handlers

    A handler takes [event.message_str] and returns the new state with the
    texts it yields through [event.plain_result].  With entries of the shape
    above nothing inside a handler's outer [try] can raise, so its
    [except Exception] branch has no counterpart here. *)

Import PyStr.

Definition add_usage : string :=
  "用法: /add_timed_msg <群号> <时间(HH:MM)> <消息内容>".
Definition time_format_error : string :=
  "时间格式错误，请使用 HH:MM 格式，如 09:00".
Definition del_usage : string := "用法: /del_timed_msg <消息ID>".
Definition toggle_usage : string := "用法: /toggle_timed_msg <消息ID>".
Definition nothing_configured : string := "当前没有配置任何定时消息".

Definition not_found (msg_id : string) : string :=
  "未找到ID为 " ++ msg_id ++ " 的定时消息".
Definition deleted (msg_id : string) : string :=
  "定时消息 " ++ msg_id ++ " 已删除".
Definition now_enabled (msg_id : string) : string :=
  "定时消息 " ++ msg_id ++ " 已启用".
Definition now_disabled (msg_id : string) : string :=
  "定时消息 " ++ msg_id ++ " 已禁用".

Definition added (msg_id group_id time_str message : string) : string :=
  "定时消息添加成功！" ++ nl ++ "ID: " ++ msg_id ++ nl ++ "群号: " ++ group_id
  ++ nl ++ "时间: " ++ time_str ++ nl ++ "消息: " ++ message.

(** [f"msg_{len(self.scheduled_messages) + 1}_{int(datetime.now().timestamp())}"] *)
Definition new_msg_id (count : nat) (timestamp : Z) : string :=
  "msg_" ++ pretty (count + 1)%nat ++ "_" ++ pretty timestamp.

(** [add_timed_message].  The two clock readings of the handler are inputs:
    [timestamp] is [int(datetime.now().timestamp())] and [created_at] is
    [datetime.now().isoformat()]. *)
Definition add_timed_message (message_str : string) (timestamp : Z)
    (created_at : string) (p : plugin) : plugin * list string :=
  match split 3 message_str with
  | _ :: group_id :: time_str :: message :: _ =>
      match fromisoformat time_str with
      | None => (p, [time_format_error])
      | Some _ =>
          let msg_id := new_msg_id (length (scheduled_messages p)) timestamp in
          let new_config :=
            mk_msg_config msg_id group_id time_str message (Some true) created_at in
          let p1 := with_messages (scheduled_messages p ++ [new_config]) p in
          let p2 := save_config p1 in
          let p3 := start_single_task new_config p2 in
          (p3, [added msg_id group_id time_str message])
      end
  | _ => (p, [add_usage])
  end.

(** The message line of [list_timed_messages]:
    [msg['message'][:50]] followed by ['...'] when [len(msg['message'])]
    exceeds 50. *)
Definition shown_message (message : string) : string :=
  slice_to 50 message
  ++ (if (50 <? len message)%nat then "..." else "").

Definition status_text (msg : msg_config) : string :=
  if get_enabled msg then "启用" else "禁用".

(** The five [result += ...] of one entry. *)
Definition list_entry (i : nat) (msg : msg_config) : string :=
  (pretty i ++ ". ID: " ++ cfg_id msg ++ nl)
  ++ ("   群号: " ++ cfg_group_id msg ++ nl)
  ++ ("   时间: " ++ cfg_time msg ++ nl)
  ++ ("   消息: " ++ shown_message (cfg_message msg) ++ nl)
  ++ ("   状态: " ++ status_text msg ++ nl ++ nl).

(** [for i, msg in enumerate(..., i): result += ...] *)
Fixpoint list_entries (i : nat) (l : list msg_config) (result : string) : string :=
  match l with
  | [] => result
  | msg :: l' => list_entries (S i) l' (result ++ list_entry i msg)
  end.

Definition list_header : string := "当前配置的定时消息:" ++ nl.

(** [list_timed_messages] *)
Definition list_timed_messages (p : plugin) : plugin * list string :=
  match scheduled_messages p with
  | [] => (p, [nothing_configured])
  | l => (p, [list_entries 1 l list_header])
  end.

(** The search of [delete_timed_message]: the list without the first entry
    whose id is [msg_id], when there is one. *)
Fixpoint delete_first (msg_id : string) (l : list msg_config)
  : option (list msg_config) :=
  match l with
  | [] => None
  | msg :: l' =>
      if String.eqb (cfg_id msg) msg_id then Some l'
      else l'' ← delete_first msg_id l'; Some (msg :: l'')
  end.

(** [delete_timed_message] *)
Definition delete_timed_message (message_str : string) (p : plugin)
  : plugin * list string :=
  match split 1 message_str with
  | _ :: msg_id :: _ =>
      match delete_first msg_id (scheduled_messages p) with
      | Some l =>
          let p1 := stop_task msg_id p in
          let p2 := with_messages l p1 in
          let p3 := save_config p2 in
          (p3, [deleted msg_id])
      | None => (p, [not_found msg_id])
      end
  | _ => (p, [del_usage])
  end.

(** The search of [toggle_timed_message]: the list with the ['enabled'] of
    the first entry whose id is [msg_id] negated, and that entry as it is
    afterwards. *)
Fixpoint toggle_first (msg_id : string) (l : list msg_config)
  : option (list msg_config * msg_config) :=
  match l with
  | [] => None
  | msg :: l' =>
      if String.eqb (cfg_id msg) msg_id then
        let msg' := set_enabled (negb (get_enabled msg)) msg in
        Some (msg' :: l', msg')
      else
        '(l'', msg') ← toggle_first msg_id l'; Some (msg :: l'', msg')
  end.

(** [toggle_timed_message] *)
Definition toggle_timed_message (message_str : string) (p : plugin)
  : plugin * list string :=
  match split 1 message_str with
  | _ :: msg_id :: _ =>
      match toggle_first msg_id (scheduled_messages p) with
      | Some (l, msg) =>
          let p1 := with_messages l p in
          let p2 := save_config p1 in
          if get_enabled msg
          then (start_single_task msg p2, [now_enabled msg_id])
          else (stop_task msg_id p2, [now_disabled msg_id])
      | None => (p, [not_found msg_id])
      end
  | _ => (p, [toggle_usage])
  end.

(** ** Runs of the plugin *)

(** A timer loop that returns on its own (an exception reached its outer
    [except Exception]): the task is done. *)
Definition finish_task (t : task) : task :=
  match task_status_of t with
  | Running => mk_task (task_config t) Finished
  | _ => t
  end.

(** What can happen to a plugin: a call of one of its methods, or one of its
    timer loops returning. *)
Inductive op : Type :=
  | Initialize
  | StartTimer (msg : msg_config)
  | StopTimer (msg_id : string)
  | Add (message_str : string) (timestamp : Z) (created_at : string)
  | ListAll
  | Delete (message_str : string)
  | Toggle (message_str : string)
  | Terminate
  | LoopReturns (h : nat).

Definition step (p : plugin) (o : op) : plugin :=
  match o with
  | Initialize => initialize p
  | StartTimer msg => start_single_task msg p
  | StopTimer msg_id => stop_task msg_id p
  | Add message_str timestamp created_at =>
      fst (add_timed_message message_str timestamp created_at p)
  | ListAll => fst (list_timed_messages p)
  | Delete message_str => fst (delete_timed_message message_str p)
  | Toggle message_str => fst (toggle_timed_message message_str p)
  | Terminate => terminate p
  | LoopReturns h => with_loop_tasks (alter finish_task h (loop_tasks p)) p
  end.

Definition run (p : plugin) (ops : list op) : plugin := foldl step p ops.

(** The tasks started for [msg_id] that are [Running]: not cancelled, and
    not reported as returned by a [LoopReturns].  No timer other than these
    can fire for [msg_id]; whether the loop inside a running task is still
    alive is a matter of [timed_message_loop]. *)
Definition is_active (msg_id : string) (t : task) : bool :=
  bool_decide (task_status_of t = Running)
  && String.eqb (cfg_id (task_config t)) msg_id.

Definition active_timers (msg_id : string) (p : plugin) : list task :=
  List.filter (is_active msg_id) (loop_tasks p).

(** The timer [self.tasks] holds for [msg_id], when it holds one. *)
Definition timer_of (msg_id : string) (p : plugin) : option task :=
  h ← tasks p !! msg_id; loop_tasks p !! h.

(** ** The time format the specification names *)


(** ** Notions the properties are stated with *)

(** A pass in which the loop reaches its delivery: the next run is computed
    and the sleep elapses.  How the delivery ends is left open. *)
Definition fires (msg : msg_config) (ps : pass) : Prop :=
  (∃ slot wait, schedule msg (pass_now ps) = Ok (slot, wait))
  ∧ pass_sleep ps = Elapsed.

(** Every running task is the one [self.tasks] holds for its entry id. *)
Definition registered (p : plugin) : Prop :=
  ∀ (h : nat) (t : task),
    loop_tasks p !! h = Some t →
    task_status_of t = Running →
    tasks p !! cfg_id (task_config t) = Some h.

(** A change of task states that starts no task and renames none. *)
Definition calms (f : task → task) : Prop :=
  ∀ t, task_config (f t) = task_config t
       ∧ (task_status_of (f t) = Running → task_status_of t = Running).

(** What the list is to show of a message: all of it, or its first fifty
    characters and three dots. *)
Definition first_fifty (message : string) : string :=
  if (50 <? len message)%nat
  then slice_to 50 message ++ "..."
  else message.

(** The text the loop of [list_timed_messages] adds to [result]. *)
Fixpoint entry_blocks (i : nat) (l : list msg_config) : string :=
  match l with
  | [] => ""
  | msg :: l' => list_entry i msg ++ entry_blocks (S i) l'
  end.

(** The entry [add_timed_message] builds. *)
Definition new_entry (p : plugin) (group_id time_str message : string)
    (timestamp : Z) (created_at : string) : msg_config :=
  mk_msg_config (new_msg_id (length (scheduled_messages p)) timestamp)
                group_id time_str message (Some true) created_at.

(** [c in s] *)
Fixpoint has_char (c : ascii) (s : string) : bool :=
  match s with
  | EmptyString => false
  | String x s' => Ascii.eqb x c || has_char c s'
  end.

(** The ids of the entries in memory, and of the entries in the file. *)
Definition ids (p : plugin) : list string := map cfg_id (scheduled_messages p).

Definition stored_ids (p : plugin) : list string :=
  match file (config_file p) with
  | Some (Document entries) => map cfg_id entries
  | _ => []
  end.

(** [q] has the entries and the file of [p]. *)
Definition store_kept (p q : plugin) : Prop :=
  scheduled_messages q = scheduled_messages p ∧ config_file q = config_file p.

(** Where a list of ids can come from when the plugin makes a step. *)
Definition by_step (p : plugin) (o : op) (l : list string) : Prop :=
  l = [] ∨ l = ids p ∨ l = stored_ids p
  ∨ (∃ m t c, o = Add m t c ∧ l = (ids p ++ [new_msg_id (length (ids p)) t])%list)
  ∨ (∃ m, o = Delete m ∧ l `sublist_of` ids p).

(** Operations other than the delete command. *)
Definition no_delete (o : op) : bool :=
  match o with
  | Delete _ => false
  | _ => true
  end.

(** The seconds at which the [Add]s of a run read the clock. *)
Definition seconds_of (o : op) : list Z :=
  match o with
  | Add _ timestamp _ => [timestamp]
  | _ => []
  end.

Definition add_seconds (ops : list op) : list Z := flat_map seconds_of ops.

(** Every id is the one generated for its position. *)
Definition numbered (l : list string) : Prop :=
  ∀ (j : nat) (i : string), l !! j = Some i → ∃ t, i = new_msg_id j t.

(** The ids differ, and each was generated at one of the seconds [T]. *)
Definition stamped (T : list Z) (l : list string) : Prop :=
  NoDup l ∧ ∀ i, i ∈ l → ∃ k t, i = new_msg_id k t ∧ t ∈ T.

(** The entry the searches of [delete_timed_message] and
    [toggle_timed_message] stop at: the first one whose id is [msg_id]. *)
Fixpoint find_first (msg_id : string) (l : list msg_config) : option msg_config :=
  match l with
  | [] => None
  | msg :: l' =>
      if String.eqb (cfg_id msg) msg_id then Some msg else find_first msg_id l'
  end.

(** [l] with [f] applied to that entry. *)
Fixpoint map_first (f : msg_config → msg_config) (msg_id : string)
    (l : list msg_config) : list msg_config :=
  match l with
  | [] => []
  | msg :: l' =>
      if String.eqb (cfg_id msg) msg_id then f msg :: l'
      else msg :: map_first f msg_id l'
  end.

(** [msg['enabled'] = not msg.get('enabled', True)] *)
Definition flip_enabled (msg : msg_config) : msg_config :=
  set_enabled (negb (get_enabled msg)) msg.

(** Every handle in [self.tasks] is the handle of a task started for that
    entry id. *)
Definition owned (p : plugin) : Prop :=
  ∀ (msg_id : string) (h : nat),
    tasks p !! msg_id = Some h →
    ∃ t, loop_tasks p !! h = Some t ∧ cfg_id (task_config t) = msg_id.

(** The entry [start_all_tasks] starts last for [msg_id]: the last enabled
    entry of the list that carries the id. *)
Fixpoint last_enabled (msg_id : string) (l : list msg_config) : option msg_config :=
  match l with
  | [] => None
  | msg :: l' =>
      match last_enabled msg_id l' with
      | Some later => Some later
      | None =>
          if String.eqb (cfg_id msg) msg_id && get_enabled msg
          then Some msg else None
      end
  end.

(** The file can be written and holds the entries the plugin has in
    memory. *)
Definition synced (p : plugin) : Prop :=
  writable (config_file p) = true
  ∧ file (config_file p) = Some (Document (scheduled_messages p)).

(** [s.count(' ')] *)
Fixpoint count_spaces (s : string) : nat :=
  match s with
  | EmptyString => 0
  | String c s' => (if Ascii.eqb c " "%char then 1 else 0) + count_spaces s'
  end.

(** The deliveries a log records: its [Sending] lines. *)
Definition is_delivery (r : log_record) : bool :=
  match snd r with
  | Sending _ _ => true
  | _ => false
  end.

Definition deliveries (l : list log_record) : nat :=
  length (List.filter is_delivery l).

(** The number of passes that fire before the first pass that does not. *)
Fixpoint fired (msg : msg_config) (env : list pass) : nat :=
  match env with
  | [] => 0
  | ps :: env' =>
      match schedule msg (pass_now ps), pass_sleep ps with
      | Ok _, Elapsed => S (fired msg env')
      | _, _ => 0
      end
  end.

(** The fields of a time are in their ranges. *)
Definition valid_time (t : time) : Prop :=
  0 ≤ hour t < 24 ∧ 0 ≤ minute t < 60 ∧ 0 ≤ second t < 60
  ∧ 0 ≤ microsecond t < 1000000.

(** The four commands of the chat front end. *)
Definition is_command (o : op) : bool :=
  match o with
  | Add _ _ _ | ListAll | Delete _ | Toggle _ => true
  | _ => false
  end.

(** The handles of [ts] are the running timers of enabled entries of [l],
    each started with the entry as it is now, and every enabled entry of
    [l] has a handle. *)
Definition timers_follow (ts : gmap string nat) (pool : list task)
    (l : list msg_config) : Prop :=
  (∀ (msg_id : string) (h : nat),
     ts !! msg_id = Some h →
     ∃ msg, msg ∈ l ∧ cfg_id msg = msg_id ∧ get_enabled msg = true
            ∧ pool !! h = Some (mk_task msg Running))
  ∧ (∀ msg, msg ∈ l → get_enabled msg = true → is_Some (ts !! cfg_id msg)).

Definition timers_follow_entries (p : plugin) : Prop :=
  timers_follow (tasks p) (loop_tasks p) (scheduled_messages p).

(** ** Sample entries, plugins and runs *)

(** An entry as [add_timed_message] stores it. *)
Definition morning_entry : msg_config :=
  mk_msg_config "msg_1_1700000000" "123456789" "09:00" "hello" (Some true)
                "2023-11-14T22:13:20".

(** No configuration file yet, in a directory that can be written. *)
Definition fresh_disk : disk := mk_disk None true.

(** A plugin with one timer running. *)
Definition morning_plugin : plugin :=
  run (init fresh_disk) [StartTimer morning_entry].

(** A message of sixty-one characters. *)
Definition long_text : string :=
  "0123456789012345678901234567890123456789012345678901234567890".

Definition long_entry : msg_config :=
  mk_msg_config "msg_1_1700000000" "123456789" "09:00" long_text (Some true) "".

(** No configuration file, and none can be created. *)
Definition locked_disk : disk := mk_disk None false.

(** Two entries added within one second, and the first of them deleted. *)
Definition same_second : list op :=
  [Add "add_timed_msg 123456789 09:00 one" 1700000000 "";
   Add "add_timed_msg 123456789 10:00 two" 1700000000 "";
   Delete "del_timed_msg msg_1_1700000000"].

(** Three entries added a minute apart, the first deleted in between. *)
Definition a_minute_apart : list op :=
  [Add "add_timed_msg 123456789 09:00 one" 1700000000 "";
   Add "add_timed_msg 123456789 10:00 two" 1700000060 "";
   Delete "del_timed_msg msg_1_1700000000";
   Add "add_timed_msg 123456789 11:00 three" 1700000120 ""].

(** An entry stored without the key ['enabled'], as a file written before
    the key existed would hold it. *)
Definition legacy_entry : msg_config :=
  mk_msg_config "msg_1_1700000000" "123456789" "09:00" "hello" None
                "2023-11-14T22:13:20".

(** The plugin started on a file that holds this entry. *)
Definition legacy_plugin : plugin :=
  initialize (init (mk_disk (Some (Document [legacy_entry])) true)).

(** ... and the entry toggled twice. *)
Definition toggled_twice : plugin :=
  fst (toggle_timed_message "toggle_timed_msg msg_1_1700000000"
         (fst (toggle_timed_message "toggle_timed_msg msg_1_1700000000"
                 legacy_plugin))).

(** A plugin whose only entry was added and then disabled. *)
Definition paused_plugin : plugin :=
  run (init fresh_disk)
      [Add "add_timed_msg 123456789 09:00 hello" 1700000000 "2023-11-14T22:13:20";
       Toggle "toggle_timed_msg msg_1_1700000000"].

(** ... toggled once, and twice. *)
Definition resumed_plugin : plugin :=
  fst (toggle_timed_message "toggle_timed_msg msg_1_1700000000" paused_plugin).

Definition paused_again : plugin :=
  fst (toggle_timed_message "toggle_timed_msg msg_1_1700000000" resumed_plugin).

(** The same, and the second entry disabled at the end. *)
Definition a_minute_apart_then_paused : list op :=
  (a_minute_apart ++ [Toggle "toggle_timed_msg msg_2_1700000060"])%list.

(** * Properties *)

(** ** The library functions on concrete inputs *)

Example split_keeps_the_message :
  split 3 "add_timed_msg 123456789 09:00 good morning, all"
  = ["add_timed_msg"; "123456789"; "09:00"; "good morning, all"].
Proof. reflexivity. Qed.

Example split_keeps_empty_fields :
  split 3 "a  b c d e" = ["a"; ""; "b"; "c d e"] ∧ split 1 "x" = ["x"]
  ∧ split 1 "x " = ["x"; ""].
Proof. repeat split. Qed.

Example fromisoformat_accepts :
  fromisoformat "09:00" = Some (mk_time 9 0 0 0 None)
  ∧ fromisoformat "09" = Some (mk_time 9 0 0 0 None)
  ∧ fromisoformat "0900" = Some (mk_time 9 0 0 0 None)
  ∧ fromisoformat "T09:00" = Some (mk_time 9 0 0 0 None)
  ∧ fromisoformat "09:00:30" = Some (mk_time 9 0 30 0 None)
  ∧ fromisoformat "09:00:30.5" = Some (mk_time 9 0 30 500000 None)
  ∧ fromisoformat "09:00:30.123" = Some (mk_time 9 0 30 123000 None)
  ∧ fromisoformat "09:00:30,1234567" = Some (mk_time 9 0 30 123456 None)
  ∧ fromisoformat "09.123" = Some (mk_time 9 0 0 123000 None)
  ∧ fromisoformat "09:00Z" = Some (mk_time 9 0 0 0 (Some 0))
  ∧ fromisoformat "09:00+08:00" = Some (mk_time 9 0 0 0 (Some 28800000000))
  ∧ fromisoformat "09:00-0330" = Some (mk_time 9 0 0 0 (Some (-12600000000))).
Proof. repeat split. Qed.

Example fromisoformat_rejects :
  fromisoformat "9:00" = None ∧ fromisoformat "25:00" = None
  ∧ fromisoformat "09:60" = None ∧ fromisoformat "24:00" = None
  ∧ fromisoformat "09:00 " = None ∧ fromisoformat "nine" = None
  ∧ fromisoformat "09:0" = None ∧ fromisoformat "09:00:30." = None
  ∧ fromisoformat "9am" = None ∧ fromisoformat "" = None
  ∧ fromisoformat "09:00+24:00" = None.
Proof. repeat split. Qed.

Example ymd2ord_known_dates :
  ymd2ord 1 1 1 = MINORDINAL ∧ ymd2ord 2024 1 1 = 738886
  ∧ ymd2ord 2024 3 1 = 738946 ∧ ymd2ord 9999 12 31 = MAXORDINAL.
Proof. repeat split. Qed.

(** ** The next run *)

Lemma time_lt_ge (a b : time) :
  time_lt a b = Ok true → time_ge a b = Ok false.
Proof.
  unfold time_lt, time_ge.
  destruct (time_cmp a b) as [c|e]; simpl; [|discriminate].
  destruct c; intros H; inversion H; reflexivity.
Qed.

(** C1.  When the time of day of [now] is strictly earlier than the fire
    time, the next run is today's date at the fire time. *)
Theorem next_run_today (now : datetime) (target_time : time) :
  time_lt (time_of now) target_time = Ok true →
  next_run now target_time = Ok (combine (date_of now) target_time).
Proof.
  intros Hlt. unfold next_run.
  rewrite (time_lt_ge _ _ Hlt). reflexivity.
Qed.

Lemma next_run_today_witness :
  time_lt (time_of (at_ymd_hm 2024 1 1 8 0)) (mk_time 9 0 0 0 None) = Ok true
  ∧ next_run (at_ymd_hm 2024 1 1 8 0) (mk_time 9 0 0 0 None)
    = Ok (at_ymd_hm 2024 1 1 9 0).
Proof.
  split; [reflexivity|].
  apply (next_run_today (at_ymd_hm 2024 1 1 8 0) (mk_time 9 0 0 0 None)).
  reflexivity.
Defined.

(** C2.  When the time of day of [now] is the fire time or later (an exact
    match included), the next run is the fire time on tomorrow's date, the
    date of [now + timedelta(days=1)]: the ordinal after today's. *)
Theorem next_run_tomorrow (now : datetime) (target_time : time) :
  time_ge (time_of now) target_time = Ok true →
  next_run now target_time
  = (tomorrow ← add_days now 1; Ok (combine (date_of tomorrow) target_time))
  ∧ (MINORDINAL ≤ date_of now + 1 ≤ MAXORDINAL →
     next_run now target_time = Ok (combine (date_of now + 1) target_time)).
Proof.
  intros Hge. unfold next_run. rewrite Hge. simpl.
  split; [reflexivity|].
  intros [Hlo Hhi]. unfold add_days, date_of in *.
  apply Z.leb_le in Hlo, Hhi. rewrite Hlo, Hhi. reflexivity.
Qed.

Lemma next_run_tomorrow_witness :
  time_ge (time_of (at_ymd_hm 2024 1 1 9 0)) (mk_time 9 0 0 0 None) = Ok true
  ∧ time_ge (time_of (at_ymd_hm 2024 1 1 10 0)) (mk_time 9 0 0 0 None) = Ok true
  ∧ next_run (at_ymd_hm 2024 1 1 9 0) (mk_time 9 0 0 0 None)
    = Ok (at_ymd_hm 2024 1 2 9 0)
  ∧ next_run (at_ymd_hm 2024 1 1 10 0) (mk_time 9 0 0 0 None)
    = Ok (at_ymd_hm 2024 1 2 9 0).
Proof.
  split; [reflexivity|]. split; [reflexivity|]. split.
  - exact (proj1 (next_run_tomorrow (at_ymd_hm 2024 1 1 9 0)
                    (mk_time 9 0 0 0 None) eq_refl)).
  - apply (proj2 (next_run_tomorrow (at_ymd_hm 2024 1 1 10 0)
                    (mk_time 9 0 0 0 None) eq_refl)).
    vm_compute. split; discriminate.
Defined.

(** The calendar ends with 9999-12-31: there [now + timedelta(days=1)]
    raises, and so does the computation of the next run. *)
Remark next_run_last_day :
  next_run (at_ymd_hm 9999 12 31 9 0) (mk_time 9 0 0 0 None) = Raise OverflowError.
Proof. reflexivity. Qed.

(** A fire time with a UTC offset cannot be ordered against the naive
    [current_time]: the comparison raises. *)
Remark next_run_aware (now : datetime) (target_time : time) (off : Z) :
  tzinfo target_time = Some off → next_run now target_time = Raise TypeError.
Proof.
  intros H. unfold next_run, time_ge, time_cmp. simpl. rewrite H. reflexivity.
Qed.

(** ** The timer loop and failing deliveries *)

Lemma timed_message_loop_fire (msg : msg_config) (now slot : datetime)
    (wait : Z) (outcome : result unit) (env : list pass) :
  schedule msg now = Ok (slot, wait) →
  timed_message_loop msg (mk_pass now Elapsed outcome :: env)
  = ((INFO, TaskWillRun (cfg_id msg) wait)
       :: send_timed_message msg outcome ++ fst (timed_message_loop msg env),
     snd (timed_message_loop msg env)).
Proof.
  intros Hs. simpl. rewrite Hs.
  destruct (timed_message_loop msg env) as [later st]. reflexivity.
Qed.

Lemma timed_message_loop_keeps_going (msg : msg_config) (env : list pass) :
  Forall (fires msg) env → snd (timed_message_loop msg env) = Looping.
Proof.
  induction env as [|ps env IH]; intros Hall; [done|].
  apply Forall_cons in Hall as [[(slot & wait & Hs) Hsleep] Hrest].
  destruct ps as [now sl outcome]. simpl in Hs, Hsleep. subst sl.
  rewrite (timed_message_loop_fire _ _ _ _ _ _ Hs). simpl. by apply IH.
Qed.

(** C4.  A pass of the loop whose delivery raises logs the failure and goes
    on exactly as a pass whose delivery succeeds: the loop is not ended, and
    what follows is the loop run on the passes that remain, which starts by
    computing the next run and waiting for it.  However many deliveries
    fail, a loop whose sleeps all elapse is still looping. *)
Theorem delivery_failure_keeps_loop (msg : msg_config) (now slot : datetime)
    (wait : Z) (e : exn) (env : list pass) :
  schedule msg now = Ok (slot, wait) →
  timed_message_loop msg (mk_pass now Elapsed (Raise e) :: env)
  = (([(INFO, TaskWillRun (cfg_id msg) wait);
       (INFO, Sending (cfg_group_id msg) (cfg_message msg));
       (ERROR, SendFailed e)] ++ fst (timed_message_loop msg env))%list,
     snd (timed_message_loop msg env))
  ∧ snd (timed_message_loop msg (mk_pass now Elapsed (Raise e) :: env))
    = snd (timed_message_loop msg (mk_pass now Elapsed (Ok ()) :: env))
  ∧ (Forall (fires msg) env →
     snd (timed_message_loop msg (mk_pass now Elapsed (Raise e) :: env)) = Looping)
  ∧ ∀ (ps : pass) (slot' : datetime) (wait' : Z) (env' : list pass),
      env = ps :: env' →
      schedule msg (pass_now ps) = Ok (slot', wait') →
      ∃ rest, fst (timed_message_loop msg env)
              = (INFO, TaskWillRun (cfg_id msg) wait') :: rest.
Proof.
  intros Hs. repeat split.
  - rewrite (timed_message_loop_fire _ _ _ _ _ _ Hs). reflexivity.
  - rewrite !(timed_message_loop_fire _ _ _ _ _ _ Hs). reflexivity.
  - intros Hall. rewrite (timed_message_loop_fire _ _ _ _ _ _ Hs). simpl.
    by apply timed_message_loop_keeps_going.
  - intros ps slot' wait' env' -> Hs'. simpl. rewrite Hs'.
    destruct (pass_sleep ps); [|eauto].
    destruct (timed_message_loop msg env') as [later st]. simpl. eauto.
Qed.

Lemma delivery_failure_keeps_loop_witness :
  timed_message_loop morning_entry
    [mk_pass (at_ymd_hm 2024 1 1 8 0) Elapsed (Raise OSError);
     mk_pass (at_ymd_hm 2024 1 1 9 0) CancelledAsleep (Ok ())]
  = ([(INFO, TaskWillRun "msg_1_1700000000" 3600000000);
      (INFO, Sending "123456789" "hello");
      (ERROR, SendFailed OSError);
      (INFO, TaskWillRun "msg_1_1700000000" 86400000000);
      (INFO, TaskCancelled "msg_1_1700000000")],
     LoopCancelled).
Proof.
  apply (proj1 (delivery_failure_keeps_loop morning_entry
                  (at_ymd_hm 2024 1 1 8 0) (at_ymd_hm 2024 1 1 9 0)
                  3600000000 OSError
                  [mk_pass (at_ymd_hm 2024 1 1 9 0) CancelledAsleep (Ok ())]
                  eq_refl)).
Defined.

(** ** One timer per entry id *)

Lemma cancel_task_calms : calms cancel_task.
Proof. intros [c []]; split; simpl; congruence. Qed.

Lemma finish_task_calms : calms finish_task.
Proof. intros [c []]; split; simpl; congruence. Qed.

Lemma cancel_task_stops (t : task) : task_status_of (cancel_task t) ≠ Running.
Proof. destruct t as [c []]; simpl; congruence. Qed.

Lemma registered_alter (f : task → task) (h : nat) (p : plugin) :
  calms f → registered p →
  registered (with_loop_tasks (alter f h (loop_tasks p)) p).
Proof.
  intros Hf Hp h0 t0. simpl. intros Hl Hr.
  destruct (decide (h = h0)) as [->|Hne].
  - rewrite list_lookup_alter_eq in Hl.
    destruct (loop_tasks p !! h0) as [t|] eqn:Ht; simpl in Hl; [|discriminate].
    inversion Hl; subst t0. destruct (Hf t) as [Hc Hs].
    rewrite Hc. apply Hp; auto.
  - rewrite list_lookup_alter_ne in Hl by assumption. apply Hp; auto.
Qed.

Lemma registered_cancel (h : nat) (p : plugin) :
  registered p → registered (cancel h p).
Proof. apply registered_alter, cancel_task_calms. Qed.

Lemma registered_logger (lv : level) (ev : log_event) (p : plugin) :
  registered p → registered (logger lv ev p).
Proof. intros Hp h t. simpl. apply Hp. Qed.

Lemma registered_with_messages (l : list msg_config) (p : plugin) :
  registered p → registered (with_messages l p).
Proof. intros Hp h t. simpl. apply Hp. Qed.

Lemma registered_save_config (p : plugin) :
  registered p → registered (save_config p).
Proof.
  intros Hp. unfold save_config.
  destruct (writable (config_file p)); [|by apply registered_logger].
  intros h t. simpl. apply Hp.
Qed.

Lemma registered_load_config (p : plugin) :
  registered p → registered (load_config p).
Proof.
  intros Hp. unfold load_config.
  destruct (file (config_file p)) as [[|entries]|].
  - by apply registered_with_messages, registered_logger.
  - by apply registered_logger, registered_with_messages.
  - by apply registered_save_config, registered_with_messages.
Qed.

Lemma registered_start_single_task (msg : msg_config) (p : plugin) :
  registered p → registered (start_single_task msg p).
Proof.
  intros Hp. unfold start_single_task.
  set (p1 := match tasks p !! cfg_id msg with
             | Some h => cancel h p | None => p end).
  assert (Hp1 : registered p1).
  { subst p1. destruct (tasks p !! cfg_id msg); [by apply registered_cancel|done]. }
  assert (Htasks : tasks p1 = tasks p).
  { subst p1. by destruct (tasks p !! cfg_id msg). }
  assert (Hold : ∀ h t, loop_tasks p1 !! h = Some t →
                        task_status_of t = Running →
                        cfg_id (task_config t) ≠ cfg_id msg).
  { intros h t Hl Hr Hid. pose proof (Hp1 h t Hl Hr) as Hreg.
    rewrite Htasks, Hid in Hreg. subst p1. rewrite Hreg in Hl.
    unfold cancel in Hl. simpl in Hl. rewrite list_lookup_alter_eq in Hl.
    destruct (loop_tasks p !! h) as [t'|]; simpl in Hl; [|discriminate].
    inversion Hl; subst t. by apply (cancel_task_stops t'). }
  simpl. apply registered_logger. intros h t. simpl. intros Hl Hr.
  destruct (decide (h < length (loop_tasks p1))%nat) as [Hlt|Hge].
  - rewrite lookup_app_l in Hl by assumption.
    rewrite lookup_insert_ne.
    + by apply Hp1.
    + intros Heq. by apply (Hold h t).
  - rewrite lookup_app_r in Hl by lia.
    destruct (h - length (loop_tasks p1))%nat as [|k] eqn:Hk; simpl in Hl;
      [|by rewrite lookup_nil in Hl].
    inversion Hl; subst t. simpl.
    replace h with (length (loop_tasks p1)) by lia.
    apply lookup_insert_eq.
Qed.

Lemma registered_stop_task (msg_id : string) (p : plugin) :
  registered p → registered (stop_task msg_id p).
Proof.
  intros Hp. unfold stop_task.
  destruct (tasks p !! msg_id) as [h|] eqn:Hh; [|done].
  pose proof (registered_cancel h p Hp) as Hc.
  intros h0 t. simpl. intros Hl Hr.
  pose proof (Hc h0 t Hl Hr) as Hreg. simpl in Hreg.
  destruct (decide (cfg_id (task_config t) = msg_id)) as [Heq|Hne].
  - rewrite Heq, Hh in Hreg. inversion Hreg; subst h0.
    rewrite list_lookup_alter_eq in Hl.
    destruct (loop_tasks p !! h) as [t'|]; simpl in Hl; [|discriminate].
    inversion Hl; subst t. by destruct (cancel_task_stops t').
  - by rewrite lookup_delete_ne.
Qed.

Lemma registered_start_tasks (l : list msg_config) (p : plugin) :
  registered p → registered (start_tasks l p).
Proof.
  revert p. induction l as [|msg l IH]; intros p Hp; simpl; [done|].
  apply IH. destruct (get_enabled msg); [by apply registered_start_single_task|done].
Qed.

Lemma registered_cancel_all (kvs : list (string * nat)) (p : plugin) :
  registered p → registered (foldr (λ kv q, cancel (snd kv) q) p kvs).
Proof.
  intros Hp. induction kvs as [|kv kvs IH]; simpl; [done|].
  by apply registered_cancel.
Qed.

Create HintDb registry.

#[local] Hint Resolve registered_cancel registered_logger
  registered_with_messages registered_save_config registered_load_config
  registered_start_single_task registered_stop_task registered_start_tasks
  registered_cancel_all : registry.

Lemma registered_step (p : plugin) (o : op) :
  registered p → registered (step p o).
Proof.
  intros Hp. destruct o; simpl.
  - unfold initialize, start_all_tasks. auto with registry.
  - auto with registry.
  - auto with registry.
  - unfold add_timed_message.
    destruct (split 3 message_str) as [|? [|? [|? [|? ?]]]]; try done.
    destruct (fromisoformat _); [|done]. simpl. auto with registry.
  - unfold list_timed_messages. by destruct (scheduled_messages p).
  - unfold delete_timed_message.
    destruct (split 1 message_str) as [|? [|? ?]]; try done.
    destruct (delete_first _ _); [|done]. simpl. auto with registry.
  - unfold toggle_timed_message.
    destruct (split 1 message_str) as [|? [|? ?]]; try done.
    destruct (toggle_first _ _) as [[l1 msg]|]; [|done].
    destruct (get_enabled msg); simpl; auto with registry.
  - unfold terminate. auto with registry.
  - apply registered_alter; [apply finish_task_calms|done].
Qed.

Lemma registered_run (ops : list op) (p : plugin) :
  registered p → registered (run p ops).
Proof.
  revert p. induction ops as [|o ops IH]; intros p Hp; simpl; [done|].
  by apply IH, registered_step.
Qed.

Lemma registered_init (d : disk) : registered (init d).
Proof. intros h t. simpl. by rewrite lookup_nil. Qed.

Lemma filter_at_most_one {A : Type} (f : A → bool) (l : list A) :
  (∀ i j x y, l !! i = Some x → l !! j = Some y →
              f x = true → f y = true → i = j) →
  (length (List.filter f l) ≤ 1)%nat.
Proof.
  induction l as [|a l IH]; intros Huniq; simpl; [lia|].
  destruct (f a) eqn:Hfa.
  - assert (Hnone : List.filter f l = []).
    { destruct (List.filter f l) as [|b l'] eqn:Hfl; [done|].
      assert (Hb : In b (List.filter f l)) by (rewrite Hfl; by left).
      apply filter_In in Hb as [Hin Hfb].
      apply list_elem_of_In, list_elem_of_lookup in Hin as [j Hj].
      specialize (Huniq 0%nat (S j) a b eq_refl Hj Hfa Hfb). discriminate. }
    rewrite Hnone. simpl. lia.
  - apply IH. intros i j x y Hi Hj Hx Hy.
    specialize (Huniq (S i) (S j) x y Hi Hj Hx Hy). lia.
Qed.

Lemma registered_at_most_one (msg_id : string) (p : plugin) :
  registered p → (length (active_timers msg_id p) ≤ 1)%nat.
Proof.
  intros Hp. apply filter_at_most_one. intros i j x y Hi Hj Hx Hy.
  unfold is_active in Hx, Hy.
  apply andb_true_iff in Hx as [Hrx Hidx], Hy as [Hry Hidy].
  apply bool_decide_eq_true in Hrx, Hry.
  apply String.eqb_eq in Hidx, Hidy.
  pose proof (Hp i x Hi Hrx) as H1. pose proof (Hp j y Hj Hry) as H2.
  rewrite Hidx in H1. rewrite Hidy in H2. congruence.
Qed.

Lemma start_single_task_replaces (msg : msg_config) (p : plugin) (h : nat) (t : task) :
  tasks p !! cfg_id msg = Some h →
  loop_tasks p !! h = Some t →
  loop_tasks (start_single_task msg p) !! h = Some (cancel_task t)
  ∧ timer_of (cfg_id msg) (start_single_task msg p) = Some (mk_task msg Running).
Proof.
  intros Hh Ht. unfold timer_of, start_single_task. rewrite Hh. simpl.
  pose proof (lookup_lt_Some _ _ _ Ht) as Hlt.
  split.
  - rewrite lookup_app_l by (by rewrite length_alter).
    by rewrite list_lookup_alter_eq, Ht.
  - rewrite lookup_insert_eq. simpl.
    rewrite lookup_app_r by lia. by rewrite Nat.sub_diag.
Qed.

(** C3.  In every state the plugin reaches from its construction, whatever
    the operations, at most one timer of an entry id can still fire; and
    [start_single_task] on an id that has a timer leaves that timer
    cancelled and registers a new running one in its place. *)
Theorem at_most_one_timer (d : disk) (ops : list op) (msg_id : string)
    (msg : msg_config) (p : plugin) (h : nat) (t : task) :
  (length (active_timers msg_id (run (init d) ops)) ≤ 1)%nat
  ∧ (tasks p !! cfg_id msg = Some h →
     loop_tasks p !! h = Some t →
     loop_tasks (start_single_task msg p) !! h = Some (cancel_task t)
     ∧ task_status_of (cancel_task t) ≠ Running
     ∧ timer_of (cfg_id msg) (start_single_task msg p) = Some (mk_task msg Running)).
Proof.
  split.
  - apply registered_at_most_one, registered_run, registered_init.
  - intros Hh Ht.
    destruct (start_single_task_replaces msg p h t Hh Ht) as [H1 H2].
    split; [done|]. split; [apply cancel_task_stops|done].
Qed.

Lemma at_most_one_timer_witness :
  (length (active_timers "msg_1_1700000000"
             (run (init fresh_disk)
                  [StartTimer morning_entry; StartTimer morning_entry])) ≤ 1)%nat
  ∧ loop_tasks (start_single_task morning_entry morning_plugin) !! 0%nat
    = Some (mk_task morning_entry Cancelled)
  ∧ timer_of "msg_1_1700000000" (start_single_task morning_entry morning_plugin)
    = Some (mk_task morning_entry Running).
Proof.
  destruct (at_most_one_timer fresh_disk
              [StartTimer morning_entry; StartTimer morning_entry]
              "msg_1_1700000000" morning_entry morning_plugin 0%nat
              (mk_task morning_entry Running)) as [Hone Hstart].
  split; [exact Hone|].
  destruct Hstart as (Hold & _ & Hnew); [vm_compute; reflexivity|reflexivity|].
  split; [exact Hold|exact Hnew].
Defined.

(** ** Deleting an unknown id *)

Lemma delete_first_None (msg_id : string) (l : list msg_config) :
  msg_id ∉ map cfg_id l → delete_first msg_id l = None.
Proof.
  induction l as [|msg l IH]; simpl; intros Hnot; [done|].
  apply not_elem_of_cons in Hnot as [Hne Hnot].
  destruct (String.eqb_spec (cfg_id msg) msg_id) as [Heq|_]; [congruence|].
  by rewrite IH.
Qed.

Lemma delete_first_Some (msg_id : string) (l : list msg_config) :
  msg_id ∈ map cfg_id l → is_Some (delete_first msg_id l).
Proof.
  induction l as [|msg l IH]; simpl; intros Hin; [by apply elem_of_nil in Hin|].
  destruct (String.eqb_spec (cfg_id msg) msg_id) as [Heq|Hne]; [eauto|].
  apply elem_of_cons in Hin as [Heq|Hin]; [congruence|].
  destruct (IH Hin) as [l' ->]. simpl. eauto.
Qed.

(** C8.  Deleting an id that no entry carries answers that the id was not
    found and returns the plugin as it was: the entries, the timers, the
    configuration file and the log are untouched (nothing is saved). *)
Theorem delete_unknown_id (message_str command msg_id : string) (p : plugin) :
  split 1 message_str = [command; msg_id] →
  msg_id ∉ map cfg_id (scheduled_messages p) →
  delete_timed_message message_str p = (p, [not_found msg_id]).
Proof.
  intros Hargs Hnot. unfold delete_timed_message.
  rewrite Hargs. by rewrite delete_first_None.
Qed.

Lemma delete_unknown_id_witness :
  delete_timed_message "del_timed_msg msg_7_1700000000"
    (run (init fresh_disk) [Add "add_timed_msg 123456789 09:00 hello" 1700000000 ""])
  = (run (init fresh_disk) [Add "add_timed_msg 123456789 09:00 hello" 1700000000 ""],
     [not_found "msg_7_1700000000"]).
Proof.
  apply (delete_unknown_id _ "del_timed_msg" "msg_7_1700000000").
  - reflexivity.
  - vm_compute. intros H. apply list_elem_of_singleton in H. discriminate.
Defined.

(** ** Listing long messages *)

Lemma str_app_assoc (a b c : string) : (a ++ b) ++ c = a ++ (b ++ c).
Proof. induction a as [|x a IH]; simpl; [done|]. unfold String.app in *. simpl. by rewrite IH. Qed.

Lemma str_app_nil_r (a : string) : a ++ "" = a.
Proof. induction a as [|x a IH]; [done|]. unfold String.app in *. simpl. by rewrite IH. Qed.

Lemma slice_to_short (n : nat) (s : string) :
  (len s ≤ n)%nat → slice_to n s = s.
Proof.
  revert n. induction s as [|c s IH]; intros n Hlen; simpl in *; [done|].
  destruct (is_continuation c).
  - by rewrite IH.
  - destruct n as [|n]; [lia|]. rewrite IH; [done|lia].
Qed.

Lemma slice_to_length (n : nat) (s : string) :
  (n ≤ len s)%nat → len (slice_to n s) = n.
Proof.
  revert n. induction s as [|c s IH]; intros n Hlen; simpl in *.
  - lia.
  - destruct (is_continuation c) eqn:Hc; simpl; rewrite ?Hc.
    + by apply IH.
    + destruct n as [|n]; [done|]. simpl. rewrite Hc, IH; [done|lia].
Qed.

Lemma slice_to_prefix (n : nat) (s : string) :
  ∃ rest, s = slice_to n s ++ rest.
Proof.
  revert n. induction s as [|c s IH]; intros n; simpl.
  - by exists "".
  - destruct (is_continuation c).
    + destruct (IH n) as [rest Hr]. exists rest.
      change (String c s = String c (slice_to n s ++ rest)). by f_equal.
    + destruct n as [|n].
      * by exists (String c s).
      * destruct (IH n) as [rest Hr]. exists rest.
        change (String c s = String c (slice_to n s ++ rest)). by f_equal.
Qed.

(** Characters, not bytes, are counted: a Chinese character takes three
    bytes. *)
Example shown_message_counts_characters :
  let ten := "一二三四五六七八九十" in
  len ten = 10%nat ∧ String.length ten = 30%nat
  ∧ shown_message (ten ++ ten) = ten ++ ten
  ∧ shown_message (ten ++ ten ++ ten ++ ten ++ ten) = ten ++ ten ++ ten ++ ten ++ ten
  ∧ shown_message (ten ++ ten ++ ten ++ ten ++ ten ++ "零")
    = ten ++ ten ++ ten ++ ten ++ ten ++ "...".
Proof. repeat split. Qed.

Lemma shown_message_first_fifty (message : string) :
  shown_message message = first_fifty message.
Proof.
  unfold shown_message, first_fifty.
  destruct (50 <? len message)%nat eqn:Hlen; [done|].
  apply Nat.ltb_ge in Hlen. rewrite slice_to_short by done. apply str_app_nil_r.
Qed.

Lemma list_entries_blocks (i : nat) (l : list msg_config) (result : string) :
  list_entries i l result = result ++ entry_blocks i l.
Proof.
  revert i result. induction l as [|msg l IH]; intros i result; simpl.
  - by rewrite str_app_nil_r.
  - by rewrite IH, str_app_assoc.
Qed.

Lemma entry_blocks_lookup (i j : nat) (l : list msg_config) (msg : msg_config) :
  l !! j = Some msg →
  entry_blocks i l
  = entry_blocks i (take j l) ++ list_entry (i + j) msg
    ++ entry_blocks (S (i + j)) (drop (S j) l).
Proof.
  revert i j. induction l as [|m l IH]; intros i j Hj;
    [by rewrite lookup_nil in Hj|].
  destruct j as [|j]; simpl in Hj.
  - inversion Hj; subst m. by rewrite Nat.add_0_r.
  - simpl. rewrite (IH (S i) j Hj), str_app_assoc.
    by rewrite Nat.add_succ_r.
Qed.

(** C9.  In the list, the message line of an entry holds the first fifty
    characters followed by ['...'] when the message is longer than fifty
    characters, and the whole message otherwise; listing returns the plugin
    as it was, so no stored message is shortened.  Characters are counted
    as Python counts them ([len], [slice_to]). *)
Theorem list_shows_first_fifty (p : plugin) (j : nat) (msg : msg_config) :
  scheduled_messages p !! j = Some msg →
  list_timed_messages p
  = (p, [(list_header
          ++ entry_blocks 1 (take j (scheduled_messages p))
          ++ (pretty (S j) ++ ". ID: " ++ cfg_id msg ++ nl)
          ++ ("   群号: " ++ cfg_group_id msg ++ nl)
          ++ ("   时间: " ++ cfg_time msg ++ nl))
         ++ ("   消息: "
             ++ (if (50 <? len (cfg_message msg))%nat
                 then slice_to 50 (cfg_message msg) ++ "..."
                 else cfg_message msg)
             ++ nl)
         ++ ("   状态: " ++ status_text msg ++ nl ++ nl)
         ++ entry_blocks (S (S j)) (drop (S j) (scheduled_messages p))]).
Proof.
  intros Hj. unfold list_timed_messages.
  destruct (scheduled_messages p) as [|m l] eqn:Hl; [by rewrite lookup_nil in Hj|].
  rewrite list_entries_blocks, (entry_blocks_lookup 1 j (m :: l) msg Hj).
  unfold list_entry at 1. rewrite shown_message_first_fifty. unfold first_fifty.
  by rewrite !str_app_assoc.
Qed.

Lemma list_shows_first_fifty_witness :
  list_timed_messages (with_messages [long_entry] (init fresh_disk))
  = (with_messages [long_entry] (init fresh_disk),
     ["当前配置的定时消息:" ++ nl
      ++ "1. ID: msg_1_1700000000" ++ nl
      ++ "   群号: 123456789" ++ nl
      ++ "   时间: 09:00" ++ nl
      ++ "   消息: 01234567890123456789012345678901234567890123456789..." ++ nl
      ++ "   状态: 启用" ++ nl ++ nl]).
Proof.
  exact (list_shows_first_fifty (with_messages [long_entry] (init fresh_disk))
           0 long_entry eq_refl).
Defined.

(** ** Loading without a configuration file *)

(** With no file to load and no way to write one, the load ends with an
    empty list of entries and still no file. *)
Lemma load_config_no_file_when_write_fails :
  file (config_file (init locked_disk)) = None
  ∧ scheduled_messages (load_config (init locked_disk)) = []
  ∧ file (config_file (load_config (init locked_disk))) = None
  ∧ ¬ (∀ p : plugin,
         file (config_file p) = None →
         file (config_file (load_config p)) = Some (Document [])).
Proof.
  repeat split. intros Hall.
  specialize (Hall (init locked_disk) eq_refl). discriminate.
Qed.

(** C10, amended.  When no configuration file exists, [load_config] empties
    the list of entries and saves it: if the file can be written, an empty
    document exists afterwards and nothing is logged; if it cannot, the
    failure is logged and there is still no file. *)
Theorem load_config_without_file (p : plugin) :
  file (config_file p) = None →
  scheduled_messages (load_config p) = []
  ∧ tasks (load_config p) = tasks p
  ∧ loop_tasks (load_config p) = loop_tasks p
  ∧ (writable (config_file p) = true →
     file (config_file (load_config p)) = Some (Document [])
     ∧ log (load_config p) = log p)
  ∧ (writable (config_file p) = false →
     file (config_file (load_config p)) = None
     ∧ log (load_config p) = (log p ++ [(ERROR, SaveFailed OSError)])%list).
Proof.
  intros Hnone. unfold load_config, save_config. rewrite Hnone. simpl.
  destruct (writable (config_file p)) eqn:Hw; simpl;
    repeat split; try done; intros; try discriminate; by repeat split.
Qed.

Lemma load_config_without_file_witness :
  scheduled_messages (load_config (init fresh_disk)) = []
  ∧ file (config_file (load_config (init fresh_disk))) = Some (Document [])
  ∧ log (load_config (init fresh_disk)) = [].
Proof.
  destruct (load_config_without_file (init fresh_disk) eq_refl)
    as (Hm & _ & _ & Hw & _).
  destruct (Hw eq_refl) as [Hf Hl]. by repeat split.
Defined.

(** ** The time format [add_timed_message] accepts *)







(** ** Entry ids *)

Lemma pretty_N_char_no_underscore (x : N) : Ascii.eqb (pretty_N_char x) "_"%char = false.
Proof. unfold pretty_N_char. by repeat case_match. Qed.

Lemma pretty_N_go_no_underscore (x : N) (s : string) :
  has_char "_" s = false → has_char "_" (pretty_N_go x s) = false.
Proof.
  revert s. induction (N.lt_wf_0 x) as [x _ IH]; intros s Hs.
  assert (x = 0 ∨ 0 < x)%N as [->|Hpos] by lia.
  - by rewrite pretty_N_go_0.
  - rewrite pretty_N_go_step by done. apply IH.
    + by apply N.div_lt.
    + simpl. by rewrite pretty_N_char_no_underscore.
Qed.

Lemma pretty_N_no_underscore (x : N) : has_char "_" (pretty x) = false.
Proof.
  unfold pretty, pretty_N. case_decide; [done|].
  by apply pretty_N_go_no_underscore.
Qed.

Lemma pretty_nat_no_underscore (n : nat) : has_char "_" (pretty n) = false.
Proof. apply pretty_N_no_underscore. Qed.

Lemma cut_at_char_unique (c : ascii) (a a' b b' : string) :
  has_char c a = false → has_char c a' = false →
  a ++ String c b = a' ++ String c b' → a = a' ∧ b = b'.
Proof.
  revert a'. induction a as [|x a IH]; intros [|x' a'] Ha Ha' Heq;
    simpl in *; unfold String.app in Heq; simpl in Heq.
  - by inversion Heq.
  - inversion Heq; subst x'. by rewrite Ascii.eqb_refl in Ha'.
  - inversion Heq; subst x. by rewrite Ascii.eqb_refl in Ha.
  - inversion Heq; subst x'.
    apply orb_false_iff in Ha as [_ Ha], Ha' as [_ Ha'].
    destruct (IH a' Ha Ha') as [-> ->]; done.
Qed.

(** The id names the count and the second it was built from. *)
Lemma new_msg_id_inj (n n' : nat) (t t' : Z) :
  new_msg_id n t = new_msg_id n' t' → n = n' ∧ t = t'.
Proof.
  unfold new_msg_id. intros Heq.
  apply (inj (String.app "msg_")) in Heq.
  apply cut_at_char_unique in Heq as [Hn Ht];
    [|apply pretty_nat_no_underscore..].
  apply (inj pretty) in Hn. apply (inj pretty) in Ht. split; [lia|done].
Qed.

Lemma store_kept_ids (p q : plugin) :
  store_kept p q → ids q = ids p ∧ stored_ids q = stored_ids p.
Proof. intros [Hm Hf]. unfold ids, stored_ids. by rewrite Hm, Hf. Qed.

Lemma store_kept_trans (p q r : plugin) :
  store_kept p q → store_kept q r → store_kept p r.
Proof. intros [? ?] [? ?]. split; congruence. Qed.

Lemma store_kept_start_single_task (msg : msg_config) (p : plugin) :
  store_kept p (start_single_task msg p).
Proof. unfold start_single_task. by destruct (tasks p !! cfg_id msg). Qed.

Lemma store_kept_stop_task (msg_id : string) (p : plugin) :
  store_kept p (stop_task msg_id p).
Proof. unfold stop_task. by destruct (tasks p !! msg_id). Qed.

Lemma store_kept_start_tasks (l : list msg_config) (p : plugin) :
  store_kept p (start_tasks l p).
Proof.
  revert p. induction l as [|msg l IH]; intros p; simpl; [done|].
  destruct (get_enabled msg); [|apply IH].
  eapply store_kept_trans; [apply store_kept_start_single_task|apply IH].
Qed.

Lemma store_kept_cancel_all (kvs : list (string * nat)) (p : plugin) :
  store_kept p (foldr (λ kv q, cancel (snd kv) q) p kvs).
Proof.
  induction kvs as [|kv kvs IH]; simpl; [done|].
  destruct IH as [? ?]. by split.
Qed.

Lemma toggle_first_ids (msg_id : string) (l l' : list msg_config) (msg : msg_config) :
  toggle_first msg_id l = Some (l', msg) → map cfg_id l' = map cfg_id l.
Proof.
  revert l'. induction l as [|m l IH]; intros l' Ht; simpl in Ht; [done|].
  destruct (String.eqb (cfg_id m) msg_id).
  - by inversion Ht.
  - destruct (toggle_first msg_id l) as [[l1 m1]|]; simpl in Ht; [|done].
    inversion Ht; subst. simpl. by rewrite (IH l1).
Qed.

Lemma delete_first_ids (msg_id : string) (l l' : list msg_config) :
  delete_first msg_id l = Some l' → map cfg_id l' `sublist_of` map cfg_id l.
Proof.
  revert l'. induction l as [|m l IH]; intros l' Hd; simpl in Hd; [done|].
  destruct (String.eqb (cfg_id m) msg_id).
  - inversion Hd; subst. simpl. by apply sublist_cons.
  - destruct (delete_first msg_id l) as [l1|]; simpl in Hd; [|done].
    inversion Hd; subst. simpl. by apply sublist_skip, IH.
Qed.

Lemma save_config_ids (p : plugin) :
  ids (save_config p) = ids p
  ∧ (stored_ids (save_config p) = ids p
     ∨ stored_ids (save_config p) = stored_ids p).
Proof. unfold save_config. destruct (writable (config_file p)); simpl; auto. Qed.

Lemma step_ids (p : plugin) (o : op) :
  by_step p o (ids (step p o)) ∧ by_step p o (stored_ids (step p o)).
Proof.
  assert (Hkept : ∀ q, store_kept p q → by_step p o (ids q) ∧ by_step p o (stored_ids q)).
  { intros q [-> ->]%store_kept_ids. unfold by_step. auto. }
  destruct o; simpl; try (apply Hkept; done).
  - (* initialize *)
    unfold initialize, start_all_tasks.
    set (q := load_config p).
    assert (Hq : by_step p Initialize (ids q) ∧ by_step p Initialize (stored_ids q)).
    { subst q. unfold load_config, by_step.
      destruct (file (config_file p)) as [[|entries]|] eqn:Hf.
      - unfold ids, stored_ids. simpl. rewrite Hf. auto.
      - unfold ids, stored_ids. simpl. rewrite Hf. auto.
      - unfold save_config. simpl.
        destruct (writable (config_file p)); unfold ids, stored_ids; simpl;
          rewrite ?Hf; auto. }
    assert (Hk : store_kept q (logger INFO InitDone (start_tasks (scheduled_messages q) q))).
    { destruct (store_kept_start_tasks (scheduled_messages q) q). by split. }
    apply store_kept_ids in Hk as [-> ->]. exact Hq.
  - apply Hkept, store_kept_start_single_task.
  - apply Hkept, store_kept_stop_task.
  - (* add *)
    unfold add_timed_message.
    destruct (split 3 message_str) as [|? [|group_id [|time_str [|message ?]]]];
      try (apply Hkept; done).
    destruct (fromisoformat time_str); [|apply Hkept; done]. simpl.
    set (msg := mk_msg_config _ _ _ _ _ _).
    set (p1 := with_messages (scheduled_messages p ++ [msg]) p).
    destruct (store_kept_ids _ _ (store_kept_start_single_task msg (save_config p1)))
      as [-> ->].
    assert (Hp1 : ids p1 = (ids p ++ [new_msg_id (length (ids p)) timestamp])%list).
    { unfold ids. simpl. by rewrite map_app, length_map. }
    destruct (save_config_ids p1) as [-> Hst]. rewrite Hp1.
    split; [unfold by_step; eauto 10|].
    destruct Hst as [->| ->]; [rewrite Hp1; unfold by_step; eauto 10|].
    unfold by_step. auto.
  - unfold list_timed_messages. destruct (scheduled_messages p); by apply Hkept.
  - (* delete *)
    unfold delete_timed_message.
    destruct (split 1 message_str) as [|? [|msg_id ?]]; try (apply Hkept; done).
    destruct (delete_first msg_id (scheduled_messages p)) as [l1|] eqn:Hd;
      [|apply Hkept; done]. simpl.
    set (p1 := with_messages l1 (stop_task msg_id p)).
    assert (Hp1 : ids p1 `sublist_of` ids p) by (by apply delete_first_ids in Hd).
    assert (Hs1 : stored_ids p1 = stored_ids p).
    { destruct (store_kept_stop_task msg_id p) as [_ Hf].
      unfold stored_ids. simpl. by rewrite Hf. }
    destruct (save_config_ids p1) as [-> Hst].
    split; [unfold by_step; eauto 10|].
    destruct Hst as [->| ->]; [unfold by_step; eauto 10|].
    rewrite Hs1. unfold by_step. auto.
  - (* toggle *)
    unfold toggle_timed_message.
    destruct (split 1 message_str) as [|? [|msg_id ?]]; try (apply Hkept; done).
    destruct (toggle_first msg_id (scheduled_messages p)) as [[l1 msg]|] eqn:Ht;
      [|apply Hkept; done].
    set (p1 := with_messages l1 p).
    assert (Hp1 : ids p1 = ids p) by (by apply toggle_first_ids in Ht).
    assert (Hq : by_step p (Toggle message_str) (ids (save_config p1))
                 ∧ by_step p (Toggle message_str) (stored_ids (save_config p1))).
    { destruct (save_config_ids p1) as [-> Hst]. rewrite Hp1.
      split; [unfold by_step; auto|].
      destruct Hst as [->| ->]; [rewrite Hp1; unfold by_step; auto|].
      unfold by_step. auto. }
    destruct (get_enabled msg); simpl.
    + by destruct (store_kept_ids _ _ (store_kept_start_single_task msg (save_config p1)))
        as [-> ->].
    + by destruct (store_kept_ids _ _ (store_kept_stop_task msg_id (save_config p1)))
        as [-> ->].
  - (* terminate *)
    unfold terminate. apply Hkept.
    destruct (store_kept_cancel_all (map_to_list (tasks p)) p). by split.
Qed.

Lemma numbered_NoDup (l : list string) : numbered l → NoDup l.
Proof.
  intros Hn. apply NoDup_alt. intros i j x Hi Hj.
  destruct (Hn i x Hi) as [t Ht]. destruct (Hn j x Hj) as [t' Ht'].
  rewrite Ht in Ht'. by apply new_msg_id_inj in Ht' as [? _].
Qed.

Lemma numbered_nil : numbered [].
Proof. intros j i Hj. by rewrite lookup_nil in Hj. Qed.

Lemma numbered_snoc (l : list string) (t : Z) :
  numbered l → numbered (l ++ [new_msg_id (length l) t]).
Proof.
  intros Hn j i Hj.
  destruct (decide (j < length l)%nat) as [Hlt|Hge].
  - rewrite lookup_app_l in Hj by done. by apply Hn.
  - rewrite lookup_app_r in Hj by lia.
    destruct (j - length l)%nat as [|k] eqn:Hk; simpl in Hj;
      [|by rewrite lookup_nil in Hj].
    inversion Hj. replace j with (length l) by lia. eauto.
Qed.

Lemma numbered_step (p : plugin) (o : op) :
  no_delete o = true →
  numbered (ids p) → numbered (stored_ids p) →
  numbered (ids (step p o)) ∧ numbered (stored_ids (step p o)).
Proof.
  intros Hnd Hi Hs.
  assert (Hby : ∀ l, by_step p o l → numbered l).
  { intros l [->|[->|[->|[(m & t & c & _ & ->)|(m & -> & _)]]]];
      auto using numbered_nil, numbered_snoc. discriminate. }
  destruct (step_ids p o) as [H1 H2]. auto.
Qed.

Lemma numbered_run (ops : list op) (p : plugin) :
  forallb no_delete ops = true →
  numbered (ids p) → numbered (stored_ids p) →
  numbered (ids (run p ops)).
Proof.
  revert p. induction ops as [|o ops IH]; intros p Hnd Hi Hs; simpl; [done|].
  simpl in Hnd. apply andb_true_iff in Hnd as [Ho Hops].
  destruct (numbered_step p o Ho Hi Hs) as [Hi' Hs']. by apply IH.
Qed.

Lemma stamped_nil (T : list Z) : stamped T [].
Proof. split; [constructor|]. intros i Hi. by apply elem_of_nil in Hi. Qed.

Lemma stamped_mono (T T' : list Z) (l : list string) :
  T ⊆ T' → stamped T l → stamped T' l.
Proof.
  intros Hsub [Hnd Hall]. split; [done|].
  intros i Hi. destruct (Hall i Hi) as (k & t & -> & Ht). eauto.
Qed.

Lemma stamped_sublist (T : list Z) (l l' : list string) :
  l' `sublist_of` l → stamped T l → stamped T l'.
Proof.
  intros Hsub [Hnd Hall]. split; [by eapply sublist_NoDup|].
  intros i Hi. apply Hall. by eapply elem_of_sublist.
Qed.

Lemma stamped_snoc (T : list Z) (l : list string) (n : nat) (t : Z) :
  t ∉ T → stamped T l → stamped (t :: T) (l ++ [new_msg_id n t]).
Proof.
  intros Hfresh [Hnd Hall]. split.
  - apply NoDup_app. split; [done|]. split; [|apply NoDup_singleton].
    intros i Hi Hnew. apply list_elem_of_singleton in Hnew. subst i.
    destruct (Hall _ Hi) as (k & t' & Heq & Ht').
    apply new_msg_id_inj in Heq as [_ <-]. done.
  - intros i Hi. apply elem_of_app in Hi as [Hi|Hi].
    + destruct (Hall i Hi) as (k & t' & -> & Ht'). exists k, t'.
      split; [done|]. by apply list_elem_of_further.
    + apply list_elem_of_singleton in Hi. subst i. exists n, t.
      split; [done|]. apply list_elem_of_here.
Qed.

Lemma stamped_step (T : list Z) (p : plugin) (o : op) :
  (∀ t, t ∈ seconds_of o → t ∉ T) →
  stamped T (ids p) → stamped T (stored_ids p) →
  stamped (seconds_of o ++ T) (ids (step p o))
  ∧ stamped (seconds_of o ++ T) (stored_ids (step p o)).
Proof.
  intros Hfresh Hi Hs.
  assert (Hsub : T ⊆ (seconds_of o ++ T)%list) by (intros x Hx; apply elem_of_app; auto).
  assert (Hby : ∀ l, by_step p o l → stamped (seconds_of o ++ T) l).
  { intros l [->|[->|[->|[(m & t & c & -> & ->)|(m & -> & Hl)]]]].
    - apply stamped_nil.
    - by eapply stamped_mono.
    - by eapply stamped_mono.
    - simpl. apply stamped_snoc; [|done].
      apply Hfresh. simpl. apply list_elem_of_here.
    - eapply stamped_sublist; [done|]. by eapply stamped_mono. }
  destruct (step_ids p o) as [H1 H2]. auto.
Qed.

Lemma stamped_run (ops : list op) (T : list Z) (p : plugin) :
  NoDup (add_seconds ops) →
  (∀ t, t ∈ add_seconds ops → t ∉ T) →
  stamped T (ids p) → stamped T (stored_ids p) →
  ∃ T', stamped T' (ids (run p ops)).
Proof.
  revert T p. induction ops as [|o ops IH]; intros T p Hnd Hfresh Hi Hs;
    simpl; [eauto|].
  unfold add_seconds in Hnd, Hfresh. simpl in Hnd, Hfresh.
  apply NoDup_app in Hnd as (Ho & Hdisj & Hops).
  destruct (stamped_step T p o) as [Hi' Hs']; [|done|done|].
  { intros t Ht. apply Hfresh, elem_of_app. auto. }
  apply (IH (seconds_of o ++ T)%list); [done| |done|done].
  intros t Ht Hin. apply elem_of_app in Hin as [Hin|Hin].
  - by apply (Hdisj t).
  - apply (Hfresh t); [|done]. apply elem_of_app. auto.
Qed.

(** C6.  Entry ids are not always unique, and no add is refused for a
    duplicate id.  After two adds and the deletion of the first entry, a
    third add within the same second sees one entry, as the second add did,
    and builds the id the second entry already carries.  It reports success
    and the list holds that id twice.  The registry of timers is keyed by
    id: starting the timer of the new entry cancels the timer of the second
    entry, which stays enabled and is never sent again. *)
Theorem add_repeats_id_after_delete :
  let third := Add "add_timed_msg 123456789 11:00 three" 1700000000 "" in
  let before := run (init fresh_disk) same_second in
  let after := run (init fresh_disk) (same_second ++ [third]) in
  ids before = ["msg_2_1700000000"]
  ∧ snd (add_timed_message "add_timed_msg 123456789 11:00 three" 1700000000 ""
           before)
    = [added "msg_2_1700000000" "123456789" "11:00" "three"]
  ∧ ids after = ["msg_2_1700000000"; "msg_2_1700000000"]
  ∧ ¬ NoDup (ids after)
  ∧ map (λ m, (cfg_message m, get_enabled m)) (scheduled_messages after)
    = [("two", true); ("three", true)]
  ∧ map (λ t, (cfg_message (task_config t), task_status_of t)) (loop_tasks after)
    = [("one", Cancelled); ("two", Cancelled); ("three", Running)].
Proof.
  intros third before after.
  split; [by vm_compute|]. split; [by vm_compute|]. split; [by vm_compute|].
  split; [|split; by vm_compute].
  intros Hnd. apply NoDup_cons in Hnd as [Hnot _].
  apply Hnot. vm_compute. apply list_elem_of_here.
Qed.

(** X17.  From a plugin built over a file with no entries, the ids of the
    entries stay different from one another as long as no delete happens,
    or no two adds read the same second. *)
Theorem ids_unique_without_delete_or_same_second (d : disk) (ops : list op) :
  stored_ids (init d) = [] →
  forallb no_delete ops = true ∨ NoDup (add_seconds ops) →
  NoDup (ids (run (init d) ops)).
Proof.
  intros Hst [Hnd|Hsec].
  - apply numbered_NoDup, numbered_run; [done|apply numbered_nil|].
    rewrite Hst. apply numbered_nil.
  - destruct (stamped_run ops [] (init d)) as [T' [Hdup _]]; try done.
    + intros t _ Hin. by apply elem_of_nil in Hin.
    + apply stamped_nil.
    + rewrite Hst. apply stamped_nil.
Qed.

Lemma ids_unique_without_delete_or_same_second_witness :
  NoDup (ids (run (init fresh_disk) a_minute_apart)).
Proof.
  apply ids_unique_without_delete_or_same_second; [reflexivity|].
  right. vm_compute.
  repeat (apply NoDup_cons; split;
          [rewrite list_elem_of_In; simpl; intuition discriminate|]).
  apply NoDup_nil_2.
Defined.

(** ** Toggling twice *)

Lemma find_first_id (msg_id : string) (l : list msg_config) (msg : msg_config) :
  find_first msg_id l = Some msg → cfg_id msg = msg_id.
Proof.
  induction l as [|m l IH]; simpl; [done|].
  destruct (String.eqb_spec (cfg_id m) msg_id) as [Heq|_]; [|done].
  by intros [= <-].
Qed.

Lemma toggle_first_find (msg_id : string) (l : list msg_config) (msg : msg_config) :
  find_first msg_id l = Some msg →
  toggle_first msg_id l = Some (map_first flip_enabled msg_id l, flip_enabled msg).
Proof.
  induction l as [|m l IH]; simpl; [done|].
  destruct (String.eqb (cfg_id m) msg_id).
  - by intros [= <-].
  - intros Hf. by rewrite (IH Hf).
Qed.

Lemma find_first_map_first (f : msg_config → msg_config) (msg_id : string)
    (l : list msg_config) (msg : msg_config) :
  (∀ m, cfg_id (f m) = cfg_id m) →
  find_first msg_id l = Some msg →
  find_first msg_id (map_first f msg_id l) = Some (f msg).
Proof.
  intros Hid. induction l as [|m l IH]; simpl; [done|].
  destruct (String.eqb (cfg_id m) msg_id) eqn:Hm; simpl.
  - intros [= <-]. by rewrite Hid, Hm.
  - by rewrite Hm.
Qed.

Lemma map_first_twice (f g : msg_config → msg_config) (msg_id : string)
    (l : list msg_config) :
  (∀ m, cfg_id (f m) = cfg_id m) →
  map_first g msg_id (map_first f msg_id l) = map_first (g ∘ f) msg_id l.
Proof.
  intros Hid. induction l as [|m l IH]; simpl; [done|].
  destruct (String.eqb (cfg_id m) msg_id) eqn:Hm; simpl.
  - by rewrite Hid, Hm.
  - by rewrite Hm, IH.
Qed.

Lemma flip_enabled_twice (msg : msg_config) :
  flip_enabled (flip_enabled msg) = set_enabled (get_enabled msg) msg.
Proof. unfold flip_enabled, set_enabled, get_enabled. simpl. by rewrite negb_involutive. Qed.

Lemma map_first_get_enabled (msg_id : string) (l : list msg_config) :
  map get_enabled (map_first (flip_enabled ∘ flip_enabled) msg_id l)
  = map get_enabled l.
Proof.
  induction l as [|m l IH]; simpl; [done|].
  destruct (String.eqb (cfg_id m) msg_id); simpl; [|by rewrite IH].
  by rewrite flip_enabled_twice.
Qed.

Lemma map_first_explicit (msg_id : string) (l : list msg_config) (msg : msg_config) :
  find_first msg_id l = Some msg →
  is_Some (cfg_enabled msg) →
  map_first (flip_enabled ∘ flip_enabled) msg_id l = l.
Proof.
  induction l as [|m l IH]; simpl; [done|].
  destruct (String.eqb (cfg_id m) msg_id).
  - intros [= <-] [b Hb]. rewrite flip_enabled_twice.
    destruct m as [? ? ? ? en ?]. simpl in Hb. subst en. reflexivity.
  - intros Hf Hm. by rewrite IH.
Qed.

(** What [toggle_timed_message] does once it has found the entry. *)
Lemma toggle_timed_message_found (message_str command msg_id : string)
    (msg : msg_config) (p : plugin) :
  split 1 message_str = [command; msg_id] →
  find_first msg_id (scheduled_messages p) = Some msg →
  let saved := save_config
                 (with_messages
                    (map_first flip_enabled msg_id (scheduled_messages p)) p) in
  toggle_timed_message message_str p
  = if get_enabled msg
    then (stop_task msg_id saved, [now_disabled msg_id])
    else (start_single_task (flip_enabled msg) saved, [now_enabled msg_id]).
Proof.
  intros Hargs Hfind. unfold toggle_timed_message.
  rewrite Hargs, (toggle_first_find _ _ _ Hfind).
  replace (get_enabled (flip_enabled msg)) with (negb (get_enabled msg)) by done.
  by destruct (get_enabled msg).
Qed.

Lemma toggle_timed_message_store (message_str command msg_id : string)
    (msg : msg_config) (p : plugin) :
  split 1 message_str = [command; msg_id] →
  find_first msg_id (scheduled_messages p) = Some msg →
  store_kept
    (save_config
       (with_messages (map_first flip_enabled msg_id (scheduled_messages p)) p))
    (fst (toggle_timed_message message_str p)).
Proof.
  intros Hargs Hfind.
  rewrite (toggle_timed_message_found _ _ _ _ _ Hargs Hfind).
  destruct (get_enabled msg); simpl;
    [apply store_kept_stop_task|apply store_kept_start_single_task].
Qed.

Lemma save_config_store (l : list msg_config) (p : plugin) :
  scheduled_messages (save_config (with_messages l p)) = l
  ∧ writable (config_file (save_config (with_messages l p)))
    = writable (config_file p)
  ∧ file (config_file (save_config (with_messages l p)))
    = if writable (config_file p) then Some (Document l) else file (config_file p).
Proof.
  unfold save_config. simpl.
  destruct (writable (config_file p)) eqn:Hw; simpl; rewrite ?Hw; auto.
Qed.

Lemma start_single_task_timer (msg : msg_config) (p : plugin) :
  timer_of (cfg_id msg) (start_single_task msg p) = Some (mk_task msg Running).
Proof.
  unfold timer_of, start_single_task.
  destruct (tasks p !! cfg_id msg) as [h|]; simpl;
    rewrite lookup_insert_eq; simpl;
    rewrite lookup_app_r by (rewrite ?length_alter; lia);
    by rewrite ?length_alter, Nat.sub_diag.
Qed.

Lemma stop_task_forgets (msg_id : string) (p : plugin) :
  tasks (stop_task msg_id p) !! msg_id = None.
Proof.
  unfold stop_task. destruct (tasks p !! msg_id) as [h|] eqn:Hh; [|done].
  simpl. apply lookup_delete_eq.
Qed.

Lemma active_timers_none (msg_id : string) (p : plugin) :
  registered p → tasks p !! msg_id = None → active_timers msg_id p = [].
Proof.
  intros Hreg Hnone. unfold active_timers.
  destruct (List.filter _ _) as [|t l] eqn:Hfl; [done|].
  assert (Hin : In t (List.filter (is_active msg_id) (loop_tasks p)))
    by (rewrite Hfl; by left).
  apply filter_In in Hin as [Hin Hact].
  apply list_elem_of_In, list_elem_of_lookup in Hin as [h Hh].
  unfold is_active in Hact. apply andb_true_iff in Hact as [Hrun Hid].
  apply bool_decide_eq_true in Hrun. apply String.eqb_eq in Hid.
  pose proof (Hreg h t Hh Hrun) as Hreg'. rewrite Hid in Hreg'. congruence.
Qed.

Lemma active_timers_one (msg_id : string) (p : plugin) (t : task) :
  registered p → timer_of msg_id p = Some t → is_active msg_id t = true →
  active_timers msg_id p = [t].
Proof.
  intros Hreg Htimer Hact.
  pose proof (registered_at_most_one msg_id p Hreg) as Hlen.
  unfold timer_of in Htimer.
  destruct (tasks p !! msg_id) as [h|]; simpl in Htimer; [|done].
  assert (Hin : In t (active_timers msg_id p)).
  { apply filter_In. split; [|done].
    apply list_elem_of_In, list_elem_of_lookup. eauto. }
  destruct (active_timers msg_id p) as [|t' [|t'' l]]; simpl in *;
    [done| |lia].
  by destruct Hin as [->|[]].
Qed.

Lemma stop_task_cancels (msg_id : string) (p : plugin) (h : nat) (t : task) :
  tasks p !! msg_id = Some h →
  loop_tasks p !! h = Some t →
  loop_tasks (stop_task msg_id p) !! h = Some (cancel_task t).
Proof.
  intros Hh Ht. unfold stop_task. rewrite Hh. simpl.
  by rewrite list_lookup_alter_eq, Ht.
Qed.

Lemma save_config_timers (l : list msg_config) (p : plugin) :
  tasks (save_config (with_messages l p)) = tasks p
  ∧ loop_tasks (save_config (with_messages l p)) = loop_tasks p.
Proof. unfold save_config. simpl. by destruct (writable (config_file p)). Qed.

Lemma registered_toggle (message_str : string) (p : plugin) :
  registered p → registered (fst (toggle_timed_message message_str p)).
Proof. apply (registered_step p (Toggle message_str)). Qed.

Lemma map_first_flip_twice (msg_id : string) (l : list msg_config) (msg : msg_config) :
  find_first msg_id l = Some msg →
  map_first (flip_enabled ∘ flip_enabled) msg_id l
  = map_first (set_enabled (get_enabled msg)) msg_id l.
Proof.
  induction l as [|m l IH]; simpl; [done|].
  destruct (String.eqb (cfg_id m) msg_id).
  - intros [= <-]. by rewrite flip_enabled_twice.
  - intros Hf. by rewrite IH.
Qed.

(** Toggling that entry twice leaves it enabled, as it was, but the file no
    longer has its original content: the entry now carries the key. *)
Lemma toggle_twice_rewrites_legacy_entry :
  scheduled_messages legacy_plugin = [legacy_entry]
  ∧ file (config_file legacy_plugin) = Some (Document [legacy_entry])
  ∧ map get_enabled (scheduled_messages toggled_twice) = [true]
  ∧ file (config_file toggled_twice)
    = Some (Document [set_enabled true legacy_entry])
  ∧ file (config_file toggled_twice) ≠ file (config_file legacy_plugin).
Proof.
  split; [by vm_compute|]. split; [by vm_compute|]. split; [by vm_compute|].
  split; [by vm_compute|]. vm_compute. discriminate.
Qed.

(** C7, amended.  Toggling twice the first entry that carries an id returns
    every entry to its enabled state; the list of entries is the original
    one when that entry stored its flag, and otherwise differs only in the
    flag now being stored.  A file that can be written then holds this list,
    and a file that cannot is left alone, so the file returns to its
    original content when the flag was stored and the file matched the
    list.  When the entry was disabled, the first toggle enables it and
    registers a running timer for it, the only one of its id; the second
    toggle disables it, cancels that timer and drops it from [self.tasks],
    leaving no timer of its id that can fire. *)
Theorem toggle_twice (message_str command msg_id : string) (msg : msg_config)
    (p : plugin) :
  split 1 message_str = [command; msg_id] →
  find_first msg_id (scheduled_messages p) = Some msg →
  let p1 := fst (toggle_timed_message message_str p) in
  let p2 := fst (toggle_timed_message message_str p1) in
  find_first msg_id (scheduled_messages p1)
  = Some (set_enabled (negb (get_enabled msg)) msg)
  ∧ find_first msg_id (scheduled_messages p2)
    = Some (set_enabled (get_enabled msg) msg)
  ∧ map get_enabled (scheduled_messages p2) = map get_enabled (scheduled_messages p)
  ∧ scheduled_messages p2
    = map_first (set_enabled (get_enabled msg)) msg_id (scheduled_messages p)
  ∧ (is_Some (cfg_enabled msg) → scheduled_messages p2 = scheduled_messages p)
  ∧ (writable (config_file p) = true →
     file (config_file p2) = Some (Document (scheduled_messages p2)))
  ∧ (writable (config_file p) = false →
     file (config_file p2) = file (config_file p))
  ∧ (is_Some (cfg_enabled msg) →
     file (config_file p) = Some (Document (scheduled_messages p)) →
     file (config_file p2) = file (config_file p))
  ∧ (get_enabled msg = false →
     ∃ h, tasks p1 !! msg_id = Some h
          ∧ loop_tasks p1 !! h = Some (mk_task (set_enabled true msg) Running)
          ∧ tasks p2 !! msg_id = None
          ∧ loop_tasks p2 !! h = Some (mk_task (set_enabled true msg) Cancelled))
  ∧ (get_enabled msg = false → registered p →
     active_timers msg_id p1 = [mk_task (set_enabled true msg) Running]
     ∧ active_timers msg_id p2 = []).
Proof.
  intros Hargs Hfind p1 p2.
  set (l := scheduled_messages p) in *.
  set (l1 := map_first flip_enabled msg_id l).
  pose proof (find_first_id _ _ _ Hfind) as Hid.
  (* the first toggle *)
  destruct (toggle_timed_message_store _ _ _ _ _ Hargs Hfind) as [Hm1 Hf1].
  fold p1 l l1 in Hm1, Hf1.
  destruct (save_config_store l1 p) as (Hs1 & Hw1 & Hd1).
  rewrite Hs1 in Hm1.
  assert (Hfind1 : find_first msg_id (scheduled_messages p1) = Some (flip_enabled msg)).
  { rewrite Hm1. by apply find_first_map_first. }
  (* the second toggle *)
  destruct (toggle_timed_message_store _ _ _ _ _ Hargs Hfind1) as [Hm2 Hf2].
  fold p2 in Hm2, Hf2. rewrite Hm1 in Hm2, Hf2.
  set (l2 := map_first flip_enabled msg_id l1) in *.
  destruct (save_config_store l2 p1) as (Hs2 & Hw2 & Hd2).
  rewrite Hs2 in Hm2.
  assert (Hl2 : l2 = map_first (flip_enabled ∘ flip_enabled) msg_id l).
  { subst l2 l1. by apply map_first_twice. }
  assert (Hw : writable (config_file p1) = writable (config_file p)).
  { by rewrite Hf1. }
  assert (Hfile : file (config_file p2)
                  = if writable (config_file p) then Some (Document l2)
                    else file (config_file p)).
  { rewrite Hf2, Hd2, Hw, Hf1, Hd1. by destruct (writable (config_file p)). }
  assert (Hexp : is_Some (cfg_enabled msg) → l2 = l).
  { intros Hsome. rewrite Hl2. by eapply map_first_explicit. }
  split; [exact Hfind1|].
  split.
  { rewrite Hm2. subst l2. rewrite <- flip_enabled_twice.
    apply find_first_map_first; [done|]. by rewrite <- Hm1. }
  split; [by rewrite Hm2, Hl2, map_first_get_enabled|].
  split; [by rewrite Hm2, Hl2, (map_first_flip_twice _ _ _ Hfind)|].
  split; [intros Hsome; by rewrite Hm2, Hexp|].
  split; [intros Hwr; by rewrite Hfile, Hwr, Hm2|].
  split; [intros Hwr; by rewrite Hfile, Hwr|].
  split.
  { intros Hsome Hsync. rewrite Hfile, (Hexp Hsome).
    by destruct (writable (config_file p)). }
  assert (Htimers : get_enabled msg = false →
            timer_of msg_id p1 = Some (mk_task (set_enabled true msg) Running)
            ∧ p2 = stop_task msg_id
                     (save_config (with_messages (map_first flip_enabled msg_id
                                                    (scheduled_messages p1)) p1))).
  { intros Hoff.
    assert (Hon : flip_enabled msg = set_enabled true msg).
    { unfold flip_enabled. by rewrite Hoff. }
    split.
    - subst p1. rewrite (toggle_timed_message_found _ _ _ _ _ Hargs Hfind), Hoff.
      simpl. rewrite Hon, <- Hid. apply (start_single_task_timer (set_enabled true msg)).
    - subst p2. rewrite (toggle_timed_message_found _ _ _ _ _ Hargs Hfind1).
      by replace (get_enabled (flip_enabled msg)) with true by (by rewrite Hon). }
  split.
  { intros Hoff. destruct (Htimers Hoff) as [Htimer Hp2].
    unfold timer_of in Htimer.
    destruct (tasks p1 !! msg_id) as [h|] eqn:Hh; simpl in Htimer; [|done].
    exists h. split; [done|]. split; [done|].
    destruct (save_config_timers (map_first flip_enabled msg_id
                                    (scheduled_messages p1)) p1) as [Ht Hlt].
    rewrite Hp2. split; [apply stop_task_forgets|].
    apply (stop_task_cancels msg_id _ h (mk_task (set_enabled true msg) Running)).
    - by rewrite Ht.
    - by rewrite Hlt. }
  intros Hoff Hreg. destruct (Htimers Hoff) as [Htimer Hp2].
  pose proof (registered_toggle message_str p Hreg) as Hreg1. fold p1 in Hreg1.
  pose proof (registered_toggle message_str p1 Hreg1) as Hreg2. fold p2 in Hreg2.
  split.
  { apply active_timers_one; [done|done|].
    unfold is_active. simpl. rewrite Hid, String.eqb_refl. done. }
  apply active_timers_none; [done|]. rewrite Hp2. apply stop_task_forgets.
Qed.

Lemma toggle_twice_witness :
  scheduled_messages paused_plugin = [set_enabled false morning_entry]
  ∧ scheduled_messages resumed_plugin = [morning_entry]
  ∧ scheduled_messages paused_again = scheduled_messages paused_plugin
  ∧ file (config_file paused_again) = file (config_file paused_plugin)
  ∧ active_timers "msg_1_1700000000" resumed_plugin = [mk_task morning_entry Running]
  ∧ active_timers "msg_1_1700000000" paused_again = [].
Proof.
  destruct (toggle_twice "toggle_timed_msg msg_1_1700000000" "toggle_timed_msg"
              "msg_1_1700000000" (set_enabled false morning_entry) paused_plugin
              eq_refl eq_refl)
    as (_ & _ & _ & _ & Hlist & _ & _ & Hfile & _ & Htimers).
  destruct Htimers as (Hone & Hnone);
    [reflexivity|apply registered_run, registered_init|].
  split; [reflexivity|]. split; [reflexivity|].
  split; [apply Hlist; by eexists|].
  split; [apply Hfile; [by eexists|reflexivity]|].
  split; [exact Hone|exact Hnone].
Defined.

(** * Further properties of the plugin *)

(** ** Handles and the tasks they name *)

Lemma owned_alter (f : task → task) (h : nat) (p : plugin) :
  calms f → owned p → owned (with_loop_tasks (alter f h (loop_tasks p)) p).
Proof.
  intros Hf Hp msg_id h0. simpl. intros Hh0.
  destruct (Hp msg_id h0 Hh0) as (t & Ht & Hid).
  destruct (decide (h = h0)) as [->|Hne].
  - exists (f t). rewrite list_lookup_alter_eq, Ht. simpl.
    split; [done|]. by rewrite (proj1 (Hf t)).
  - exists t. by rewrite list_lookup_alter_ne.
Qed.

Lemma owned_cancel (h : nat) (p : plugin) : owned p → owned (cancel h p).
Proof. apply owned_alter, cancel_task_calms. Qed.

Lemma owned_logger (lv : level) (ev : log_event) (p : plugin) :
  owned p → owned (logger lv ev p).
Proof. intros Hp msg_id h. simpl. apply Hp. Qed.

Lemma owned_with_messages (l : list msg_config) (p : plugin) :
  owned p → owned (with_messages l p).
Proof. intros Hp msg_id h. simpl. apply Hp. Qed.

Lemma owned_save_config (p : plugin) : owned p → owned (save_config p).
Proof.
  intros Hp. unfold save_config.
  destruct (writable (config_file p)); [|by apply owned_logger].
  intros msg_id h. simpl. apply Hp.
Qed.

Lemma owned_load_config (p : plugin) : owned p → owned (load_config p).
Proof.
  intros Hp. unfold load_config.
  destruct (file (config_file p)) as [[|entries]|].
  - by apply owned_with_messages, owned_logger.
  - by apply owned_logger, owned_with_messages.
  - by apply owned_save_config, owned_with_messages.
Qed.

Lemma owned_start_single_task (msg : msg_config) (p : plugin) :
  owned p → owned (start_single_task msg p).
Proof.
  intros Hp. unfold start_single_task.
  set (p1 := match tasks p !! cfg_id msg with
             | Some h => cancel h p | None => p end).
  assert (Hp1 : owned p1).
  { subst p1. destruct (tasks p !! cfg_id msg); [by apply owned_cancel|done]. }
  simpl. apply owned_logger. intros msg_id h. simpl. intros Hh.
  destruct (decide (cfg_id msg = msg_id)) as [<-|Hne].
  - rewrite lookup_insert_eq in Hh. inversion Hh; subst h.
    exists (mk_task msg Running).
    rewrite lookup_app_r by lia. by rewrite Nat.sub_diag.
  - rewrite lookup_insert_ne in Hh by done.
    destruct (Hp1 msg_id h Hh) as (t & Ht & Hid). exists t.
    split; [|done]. rewrite lookup_app_l; [done|]. by eapply lookup_lt_Some.
Qed.

Lemma owned_stop_task (msg_id : string) (p : plugin) :
  owned p → owned (stop_task msg_id p).
Proof.
  intros Hp. unfold stop_task.
  destruct (tasks p !! msg_id) as [h|] eqn:Hh; [|done].
  pose proof (owned_cancel h p Hp) as Hc.
  intros id0 h0. simpl. intros Hh0.
  destruct (decide (msg_id = id0)) as [->|Hne].
  - by rewrite lookup_delete_eq in Hh0.
  - rewrite lookup_delete_ne in Hh0 by done. by apply Hc.
Qed.

Lemma owned_start_tasks (l : list msg_config) (p : plugin) :
  owned p → owned (start_tasks l p).
Proof.
  revert p. induction l as [|msg l IH]; intros p Hp; simpl; [done|].
  apply IH. destruct (get_enabled msg); [by apply owned_start_single_task|done].
Qed.

Lemma owned_cancel_all (kvs : list (string * nat)) (p : plugin) :
  owned p → owned (foldr (λ kv q, cancel (snd kv) q) p kvs).
Proof.
  intros Hp. induction kvs as [|kv kvs IH]; simpl; [done|].
  by apply owned_cancel.
Qed.

#[local] Hint Resolve owned_cancel owned_logger owned_with_messages
  owned_save_config owned_load_config owned_start_single_task
  owned_stop_task owned_start_tasks owned_cancel_all : registry.

Lemma owned_step (p : plugin) (o : op) : owned p → owned (step p o).
Proof.
  intros Hp. destruct o; simpl.
  - unfold initialize, start_all_tasks. auto with registry.
  - auto with registry.
  - auto with registry.
  - unfold add_timed_message.
    destruct (split 3 message_str) as [|? [|? [|? [|? ?]]]]; try done.
    destruct (fromisoformat _); [|done]. simpl. auto with registry.
  - unfold list_timed_messages. by destruct (scheduled_messages p).
  - unfold delete_timed_message.
    destruct (split 1 message_str) as [|? [|? ?]]; try done.
    destruct (delete_first _ _); [|done]. simpl. auto with registry.
  - unfold toggle_timed_message.
    destruct (split 1 message_str) as [|? [|? ?]]; try done.
    destruct (toggle_first _ _) as [[l1 msg]|]; [|done].
    destruct (get_enabled msg); simpl; auto with registry.
  - unfold terminate. auto with registry.
  - apply owned_alter; [apply finish_task_calms|done].
Qed.

Lemma owned_init (d : disk) : owned (init d).
Proof. intros msg_id h. simpl. by rewrite lookup_empty. Qed.

Lemma owned_run (ops : list op) (p : plugin) : owned p → owned (run p ops).
Proof.
  revert p. induction ops as [|o ops IH]; intros p Hp; simpl; [done|].
  by apply IH, owned_step.
Qed.

(** X1.  In every state the plugin reaches from its construction, each
    handle [self.tasks] holds for an id is the handle of a task that was
    started for an entry of that id. *)
Theorem tasks_name_their_own_timers (d : disk) (ops : list op)
    (msg_id : string) (h : nat) :
  tasks (run (init d) ops) !! msg_id = Some h →
  ∃ t, loop_tasks (run (init d) ops) !! h = Some t
       ∧ cfg_id (task_config t) = msg_id.
Proof. apply (owned_run ops (init d) (owned_init d)). Qed.

Lemma tasks_name_their_own_timers_witness :
  ∃ t, loop_tasks
         (run (init fresh_disk)
              [Add "add_timed_msg 123456789 09:00 hello" 1700000000 "";
               Toggle "toggle_timed_msg msg_1_1700000000";
               Toggle "toggle_timed_msg msg_1_1700000000"]) !! 1%nat = Some t
       ∧ cfg_id (task_config t) = "msg_1_1700000000".
Proof.
  apply (tasks_name_their_own_timers fresh_disk
           [Add "add_timed_msg 123456789 09:00 hello" 1700000000 "";
            Toggle "toggle_timed_msg msg_1_1700000000";
            Toggle "toggle_timed_msg msg_1_1700000000"]
           "msg_1_1700000000" 1%nat).
  reflexivity.
Defined.

(** ** Timers after a start *)

Lemma last_enabled_id (msg_id : string) (l : list msg_config) (msg : msg_config) :
  last_enabled msg_id l = Some msg →
  msg ∈ l ∧ cfg_id msg = msg_id ∧ get_enabled msg = true.
Proof.
  induction l as [|m l IH]; simpl; [done|].
  destruct (last_enabled msg_id l) as [later|].
  - intros [= <-]. destruct (IH eq_refl) as (Hin & Hid & Hen).
    split; [by apply list_elem_of_further|done].
  - destruct (String.eqb_spec (cfg_id m) msg_id) as [Heq|_]; simpl; [|done].
    destruct (get_enabled m) eqn:Hen; [|done].
    intros [= <-]. split; [apply list_elem_of_here|done].
Qed.

(** Starting entries of other ids leaves the timer of [msg_id] alone. *)
Lemma start_tasks_keeps (msg_id : string) (l : list msg_config) (p : plugin) (h : nat) :
  owned p →
  last_enabled msg_id l = None →
  tasks p !! msg_id = Some h →
  tasks (start_tasks l p) !! msg_id = Some h
  ∧ loop_tasks (start_tasks l p) !! h = loop_tasks p !! h.
Proof.
  revert p. induction l as [|m l IH]; intros p Hp Hnone Hh; simpl; [done|].
  simpl in Hnone. destruct (last_enabled msg_id l) eqn:Hl; [done|].
  destruct (get_enabled m) eqn:Hen; [|by apply IH].
  rewrite andb_true_r in Hnone.
  destruct (String.eqb_spec (cfg_id m) msg_id) as [_|Hne]; [done|].
  destruct (Hp msg_id h Hh) as (t & Ht & Hid).
  assert (Hh' : tasks (start_single_task m p) !! msg_id = Some h).
  { unfold start_single_task. destruct (tasks p !! cfg_id m); simpl;
      by rewrite lookup_insert_ne. }
  assert (Ht' : loop_tasks (start_single_task m p) !! h = loop_tasks p !! h).
  { unfold start_single_task.
    destruct (tasks p !! cfg_id m) as [h'|] eqn:Hh'0; simpl.
    - destruct (Hp (cfg_id m) h' Hh'0) as (t' & Ht'0 & Hid').
      assert (h' ≠ h) by (intros ->; congruence).
      rewrite lookup_app_l by (rewrite length_alter; by eapply lookup_lt_Some).
      by rewrite list_lookup_alter_ne.
    - rewrite lookup_app_l; [done|]. by eapply lookup_lt_Some. }
  destruct (IH (start_single_task m p)) as [H1 H2]; auto with registry.
  split; [done|]. by rewrite H2.
Qed.

Lemma start_tasks_other (msg_id : string) (l : list msg_config) (p : plugin) :
  last_enabled msg_id l = None →
  tasks (start_tasks l p) !! msg_id = tasks p !! msg_id.
Proof.
  revert p. induction l as [|m l IH]; intros p Hnone; simpl; [done|].
  simpl in Hnone. destruct (last_enabled msg_id l) eqn:Hl; [done|].
  rewrite IH by done.
  destruct (get_enabled m) eqn:Hen; [|done].
  rewrite andb_true_r in Hnone.
  destruct (String.eqb_spec (cfg_id m) msg_id) as [_|Hne]; [done|].
  unfold start_single_task. destruct (tasks p !! cfg_id m); simpl;
    by rewrite lookup_insert_ne.
Qed.

Lemma start_tasks_timer (msg_id : string) (l : list msg_config) (p : plugin)
    (msg : msg_config) :
  owned p →
  last_enabled msg_id l = Some msg →
  timer_of msg_id (start_tasks l p) = Some (mk_task msg Running).
Proof.
  revert p. induction l as [|m l IH]; intros p Hp Hlast; simpl; [done|].
  simpl in Hlast. destruct (last_enabled msg_id l) as [later|] eqn:Hl.
  - inversion Hlast; subst later. apply IH; [|done].
    destruct (get_enabled m); auto with registry.
  - destruct (String.eqb_spec (cfg_id m) msg_id) as [Heq|_]; simpl in Hlast; [|done].
    destruct (get_enabled m) eqn:Hen; [|done]. inversion Hlast; subst m.
    pose proof (start_single_task_timer msg p) as Htimer.
    rewrite Heq in Htimer. unfold timer_of in Htimer.
    destruct (tasks (start_single_task msg p) !! msg_id) as [h|] eqn:Hh;
      simpl in Htimer; [|done].
    destruct (start_tasks_keeps msg_id l (start_single_task msg p) h)
      as [H1 H2]; auto with registry.
    unfold timer_of. rewrite H1. simpl. by rewrite H2.
Qed.

(** X2.  A plugin constructed over a configuration file and initialized
    holds the entries of the file, and for every id exactly the timers it
    should: one running timer, for the last enabled entry carrying the id,
    and none when no enabled entry carries it. *)
Theorem initialize_starts_enabled_entries (d : disk) (entries : list msg_config)
    (msg_id : string) :
  file d = Some (Document entries) →
  scheduled_messages (initialize (init d)) = entries
  ∧ active_timers msg_id (initialize (init d))
    = match last_enabled msg_id entries with
      | Some msg => [mk_task msg Running]
      | None => []
      end.
Proof.
  intros Hfile.
  assert (Hreg : registered (initialize (init d))).
  { apply (registered_step (init d) Initialize), registered_init. }
  assert (Hload : load_config (init d)
                  = logger INFO (ConfigLoaded (length entries))
                      (with_messages entries (init d))).
  { unfold load_config. simpl. by rewrite Hfile. }
  unfold initialize, start_all_tasks in *. rewrite Hload in *. simpl in *.
  set (p0 := logger INFO (ConfigLoaded (length entries))
               (with_messages entries (init d))) in *.
  assert (Hown : owned p0).
  { subst p0. apply owned_logger, owned_with_messages, owned_init. }
  split.
  { by destruct (store_kept_start_tasks entries p0) as [-> _]. }
  destruct (last_enabled msg_id entries) as [msg|] eqn:Hlast.
  - destruct (last_enabled_id _ _ _ Hlast) as (_ & Hid & _).
    apply active_timers_one; [done| |].
    + unfold timer_of. simpl.
      apply (start_tasks_timer msg_id entries p0 msg Hown Hlast).
    + unfold is_active. simpl. by rewrite Hid, String.eqb_refl.
  - apply active_timers_none; [done|]. simpl.
    by rewrite (start_tasks_other msg_id entries p0 Hlast).
Qed.

Lemma initialize_starts_enabled_entries_witness :
  scheduled_messages
    (initialize (init (mk_disk (Some (Document [morning_entry;
                                                 set_enabled false long_entry]))
                               true)))
  = [morning_entry; set_enabled false long_entry]
  ∧ active_timers "msg_1_1700000000"
      (initialize (init (mk_disk (Some (Document [morning_entry;
                                                   set_enabled false long_entry]))
                                 true)))
    = [mk_task morning_entry Running].
Proof.
  exact (initialize_starts_enabled_entries
           (mk_disk (Some (Document [morning_entry; set_enabled false long_entry]))
                    true)
           [morning_entry; set_enabled false long_entry] "msg_1_1700000000"
           eq_refl).
Defined.

(** ** Termination *)

Lemma cancel_all_tasks (kvs : list (string * nat)) (p : plugin) :
  tasks (foldr (λ kv q, cancel (snd kv) q) p kvs) = tasks p.
Proof. induction kvs as [|kv kvs IH]; simpl; [done|]. exact IH. Qed.

Lemma cancel_all_lookup (kvs : list (string * nat)) (p : plugin) (h : nat) (t : task) :
  loop_tasks (foldr (λ kv q, cancel (snd kv) q) p kvs) !! h = Some t →
  task_status_of t = Running →
  loop_tasks p !! h = Some t ∧ h ∉ map snd kvs.
Proof.
  revert t. induction kvs as [|kv kvs IH]; intros t Hl Hr; simpl in *.
  { split; [done|]. apply not_elem_of_nil. }
  destruct (decide (snd kv = h)) as [Heq|Hne].
  - rewrite Heq, list_lookup_alter_eq in Hl.
    destruct (loop_tasks _ !! h) as [t'|]; simpl in Hl; [|done].
    inversion Hl; subst t. by destruct (cancel_task_stops t').
  - rewrite list_lookup_alter_ne in Hl by done.
    destruct (IH t Hl Hr) as [H1 H2]. split; [done|].
    apply not_elem_of_cons. by split.
Qed.

Lemma filter_none {A : Type} (f : A → bool) (l : list A) :
  (∀ x, x ∈ l → f x = false) → List.filter f l = [].
Proof.
  induction l as [|a l IH]; intros Hall; simpl; [done|].
  rewrite (Hall a) by apply list_elem_of_here.
  apply IH. intros x Hx. by apply Hall, list_elem_of_further.
Qed.

(** X3.  After [terminate], in whatever state the plugin was, no timer of
    any id can fire any more; [self.tasks] still holds the handles it
    held. *)
Theorem terminate_stops_every_timer (d : disk) (ops : list op) (msg_id : string) :
  active_timers msg_id (terminate (run (init d) ops)) = []
  ∧ tasks (terminate (run (init d) ops)) = tasks (run (init d) ops).
Proof.
  set (p := run (init d) ops).
  assert (Hreg : registered p) by apply registered_run, registered_init.
  split; [|apply cancel_all_tasks].
  apply filter_none. intros t Hin.
  apply list_elem_of_lookup in Hin as [h Hh].
  unfold is_active. destruct (task_status_of t) eqn:Hst; try done.
  exfalso. unfold terminate in Hh. simpl in Hh.
  destruct (cancel_all_lookup _ _ _ _ Hh Hst) as [Hold Hnot].
  apply Hnot. pose proof (Hreg h t Hold Hst) as Hkey.
  apply elem_of_map_to_list in Hkey.
  apply list_elem_of_fmap. by exists (cfg_id (task_config t), h).
Qed.

(** ** The file and the entries in memory *)

Lemma synced_kept (p q : plugin) : store_kept p q → synced p → synced q.
Proof. intros [Hm Hf] [Hw Hd]. unfold synced. by rewrite Hm, Hf. Qed.

Lemma synced_save (l : list msg_config) (p : plugin) :
  writable (config_file p) = true → synced (save_config (with_messages l p)).
Proof.
  intros Hw. destruct (save_config_store l p) as (Hm & Hw' & Hf).
  unfold synced. by rewrite Hm, Hw', Hf, Hw.
Qed.

Lemma synced_step (p : plugin) (o : op) : synced p → synced (step p o).
Proof.
  intros Hp. pose proof Hp as [Hw Hd]. destruct o; simpl.
  - unfold initialize, start_all_tasks.
    assert (Hload : synced (load_config p)).
    { unfold load_config. rewrite Hd. by split. }
    eapply synced_kept; [|exact Hload].
    destruct (store_kept_start_tasks (scheduled_messages (load_config p))
                (load_config p)). by split.
  - eapply synced_kept; [apply store_kept_start_single_task|done].
  - eapply synced_kept; [apply store_kept_stop_task|done].
  - unfold add_timed_message.
    destruct (split 3 message_str) as [|? [|? [|? [|? ?]]]]; try done.
    destruct (fromisoformat _); [|done]. simpl.
    eapply synced_kept; [apply store_kept_start_single_task|].
    by apply synced_save.
  - unfold list_timed_messages. by destruct (scheduled_messages p).
  - unfold delete_timed_message.
    destruct (split 1 message_str) as [|? [|msg_id ?]]; try done.
    destruct (delete_first _ _); [|done]. simpl.
    apply synced_save.
    by destruct (store_kept_stop_task msg_id p) as [_ ->].
  - unfold toggle_timed_message.
    destruct (split 1 message_str) as [|? [|msg_id ?]]; try done.
    destruct (toggle_first _ _) as [[l1 msg]|]; [|done].
    destruct (get_enabled msg); simpl.
    + eapply synced_kept; [apply store_kept_start_single_task|].
      by apply synced_save.
    + eapply synced_kept; [apply store_kept_stop_task|].
      by apply synced_save.
  - unfold terminate. eapply synced_kept; [|done].
    destruct (store_kept_cancel_all (map_to_list (tasks p)) p). by split.
  - done.
Qed.

Lemma synced_run (ops : list op) (p : plugin) : synced p → synced (run p ops).
Proof.
  revert p. induction ops as [|o ops IH]; intros p Hp; simpl; [done|].
  by apply IH, synced_step.
Qed.

Lemma synced_initialize (d : disk) :
  writable d = true → file d ≠ Some Malformed → synced (initialize (init d)).
Proof.
  intros Hw Hok. unfold initialize, start_all_tasks.
  assert (Hload : synced (load_config (init d))).
  { unfold load_config, save_config. simpl.
    destruct (file d) as [[|entries]|] eqn:Hf; [done| |].
    - unfold synced. simpl. by rewrite Hf.
    - simpl. rewrite Hw. by split. }
  eapply synced_kept; [|exact Hload].
  destruct (store_kept_start_tasks (scheduled_messages (load_config (init d)))
              (load_config (init d))). by split.
Qed.

Lemma initialize_entries (p : plugin) :
  scheduled_messages (initialize p) = scheduled_messages (load_config p).
Proof.
  unfold initialize, start_all_tasks.
  change (scheduled_messages
            (start_tasks (scheduled_messages (load_config p)) (load_config p))
          = scheduled_messages (load_config p)).
  by destruct (store_kept_start_tasks (scheduled_messages (load_config p))
                 (load_config p)) as [-> _].
Qed.

(** X4.  Over a file that can be written and is not corrupt, whatever is
    done to an initialized plugin, the file holds exactly the entries the
    plugin has in memory; a plugin constructed over that file and
    initialized, as after a restart, has the same entries. *)
Theorem file_follows_memory (d : disk) (ops : list op) :
  writable d = true →
  file d ≠ Some Malformed →
  file (config_file (run (initialize (init d)) ops))
  = Some (Document (scheduled_messages (run (initialize (init d)) ops)))
  ∧ scheduled_messages
      (initialize (init (config_file (run (initialize (init d)) ops))))
    = scheduled_messages (run (initialize (init d)) ops).
Proof.
  intros Hw Hok.
  destruct (synced_run ops _ (synced_initialize d Hw Hok)) as [Hw' Hd].
  split; [done|].
  set (p := run (initialize (init d)) ops) in *.
  rewrite initialize_entries. unfold load_config. simpl. by rewrite Hd.
Qed.

Lemma file_follows_memory_witness :
  file (config_file (run (initialize (init fresh_disk)) a_minute_apart))
  = Some (Document
            (scheduled_messages (run (initialize (init fresh_disk)) a_minute_apart)))
  ∧ scheduled_messages
      (initialize
         (init (config_file (run (initialize (init fresh_disk)) a_minute_apart))))
    = scheduled_messages (run (initialize (init fresh_disk)) a_minute_apart).
Proof.
  apply (file_follows_memory fresh_disk a_minute_apart); [reflexivity|discriminate].
Defined.

(** X5.  Over a corrupt file the plugin initializes with no entry and no
    timer, logs the failed load, and leaves the file as it found it. *)
Theorem initialize_on_corrupt_file (d : disk) :
  file d = Some Malformed →
  initialize (init d)
  = mk_plugin d ∅ [] [] [(ERROR, LoadFailed ValueError); (INFO, InitDone)].
Proof.
  intros Hf. unfold initialize, start_all_tasks, load_config. simpl.
  rewrite Hf. simpl. unfold logger, with_messages. simpl. by destruct d.
Qed.

Lemma initialize_on_corrupt_file_witness :
  initialize (init (mk_disk (Some Malformed) true))
  = mk_plugin (mk_disk (Some Malformed) true) ∅ [] []
      [(ERROR, LoadFailed ValueError); (INFO, InitDone)].
Proof. exact (initialize_on_corrupt_file (mk_disk (Some Malformed) true) eq_refl). Defined.

Lemma unwritable_save (p : plugin) :
  writable (config_file p) = false → config_file (save_config p) = config_file p.
Proof. intros Hw. unfold save_config. by rewrite Hw. Qed.

Lemma unwritable_step (p : plugin) (o : op) :
  writable (config_file p) = false → config_file (step p o) = config_file p.
Proof.
  intros Hw.
  assert (Hsave : ∀ l q, config_file q = config_file p →
                         config_file (save_config (with_messages l q)) = config_file p).
  { intros l q Hq. rewrite unwritable_save; simpl; by rewrite Hq. }
  assert (Hstart : ∀ msg q, config_file q = config_file p →
                            config_file (start_single_task msg q) = config_file p).
  { intros msg q Hq. by rewrite (proj2 (store_kept_start_single_task msg q)). }
  assert (Hstop : ∀ msg_id q, config_file q = config_file p →
                              config_file (stop_task msg_id q) = config_file p).
  { intros msg_id q Hq. by rewrite (proj2 (store_kept_stop_task msg_id q)). }
  destruct o; cbn [step].
  - unfold initialize, start_all_tasks. cbn [config_file logger].
    rewrite (proj2 (store_kept_start_tasks _ _)).
    unfold load_config. destruct (file (config_file p)) as [[|entries]|]; try done.
    by apply Hsave.
  - by apply Hstart.
  - by apply Hstop.
  - unfold add_timed_message.
    destruct (split 3 message_str) as [|? [|? [|? [|? ?]]]]; try done.
    destruct (fromisoformat _); [|done]. cbn [fst].
    by apply Hstart, Hsave.
  - unfold list_timed_messages. by destruct (scheduled_messages p).
  - unfold delete_timed_message.
    destruct (split 1 message_str) as [|? [|msg_id ?]]; try done.
    destruct (delete_first _ _); [|done]. cbn [fst].
    by apply Hsave, Hstop.
  - unfold toggle_timed_message.
    destruct (split 1 message_str) as [|? [|msg_id ?]]; try done.
    destruct (toggle_first _ _) as [[l1 msg]|]; [|done].
    destruct (get_enabled msg); cbn [fst].
    + by apply Hstart, Hsave.
    + by apply Hstop, Hsave.
  - unfold terminate. cbn [config_file logger].
    by rewrite (proj2 (store_kept_cancel_all _ _)).
  - done.
Qed.

Lemma start_single_task_log (msg : msg_config) (p : plugin) :
  log (start_single_task msg p) = (log p ++ [(INFO, TaskStarted (cfg_id msg))])%list.
Proof. unfold start_single_task. by destruct (tasks p !! cfg_id msg). Qed.

Lemma stop_task_log (msg_id : string) (p : plugin) :
  log (stop_task msg_id p) = log p.
Proof. unfold stop_task. by destruct (tasks p !! msg_id). Qed.

Lemma stop_task_entries (msg_id : string) (p : plugin) :
  scheduled_messages (stop_task msg_id p) = scheduled_messages p
  ∧ config_file (stop_task msg_id p) = config_file p.
Proof. unfold stop_task. by destruct (tasks p !! msg_id). Qed.

Lemma start_single_task_entries (msg : msg_config) (p : plugin) :
  scheduled_messages (start_single_task msg p) = scheduled_messages p.
Proof. unfold start_single_task. by destruct (tasks p !! cfg_id msg). Qed.

(** X6.  A file that cannot be written is never changed, whatever is done
    to the plugin: [save_config] only adds the failure to the log, and the
    commands go on in memory.  An accepted add still appends its entry,
    starts the timer and reports success; a delete or a toggle of a known id
    still changes the entries and reports it; each logs the failed save. *)
Theorem unwritable_file_is_never_changed (p : plugin) (ops : list op) :
  writable (config_file p) = false →
  config_file (run p ops) = config_file p
  ∧ save_config p = logger ERROR (SaveFailed OSError) p
  ∧ (∀ message_str command group_id time_str message timestamp created_at,
       split 3 message_str = [command; group_id; time_str; message] →
       is_Some (fromisoformat time_str) →
       let msg := new_entry p group_id time_str message timestamp created_at in
       let r := add_timed_message message_str timestamp created_at p in
       scheduled_messages (fst r) = (scheduled_messages p ++ [msg])%list
       ∧ timer_of (cfg_id msg) (fst r) = Some (mk_task msg Running)
       ∧ log (fst r)
         = (log p ++ [(ERROR, SaveFailed OSError);
                      (INFO, TaskStarted (cfg_id msg))])%list
       ∧ snd r = [added (cfg_id msg) group_id time_str message])
  ∧ (∀ message_str command msg_id l,
       split 1 message_str = [command; msg_id] →
       delete_first msg_id (scheduled_messages p) = Some l →
       let r := delete_timed_message message_str p in
       scheduled_messages (fst r) = l
       ∧ log (fst r) = (log p ++ [(ERROR, SaveFailed OSError)])%list
       ∧ snd r = [deleted msg_id])
  ∧ (∀ message_str command msg_id l msg,
       split 1 message_str = [command; msg_id] →
       toggle_first msg_id (scheduled_messages p) = Some (l, msg) →
       let r := toggle_timed_message message_str p in
       scheduled_messages (fst r) = l
       ∧ log (fst r)
         = (log p ++ (ERROR, SaveFailed OSError)
                     :: (if get_enabled msg
                         then [(INFO, TaskStarted (cfg_id msg))] else []))%list
       ∧ snd r = [if get_enabled msg then now_enabled msg_id
                  else now_disabled msg_id]).
Proof.
  intros Hw. split; [|split; [|split; [|split]]].
  - revert p Hw. induction ops as [|o ops IH]; intros p Hw; simpl; [done|].
    rewrite IH; rewrite unwritable_step; done.
  - unfold save_config. by rewrite Hw.
  - intros message_str command group_id time_str message timestamp created_at
      Hargs [t Ht] msg r.
    subst r. unfold add_timed_message. rewrite Hargs, Ht. cbn [fst snd].
    fold (new_entry p group_id time_str message timestamp created_at). fold msg.
    unfold save_config. cbn [config_file with_messages]. rewrite Hw.
    rewrite start_single_task_entries, start_single_task_log,
            start_single_task_timer.
    cbn [scheduled_messages log logger with_messages].
    by rewrite <- app_assoc.
  - intros message_str command msg_id l Hargs Hl r.
    subst r. unfold delete_timed_message. rewrite Hargs, Hl. cbn [fst snd].
    unfold save_config. cbn [config_file with_messages].
    rewrite (proj2 (stop_task_entries msg_id p)), Hw.
    cbn [scheduled_messages log logger with_messages].
    by rewrite stop_task_log.
  - intros message_str command msg_id l msg Hargs Hl r.
    subst r. unfold toggle_timed_message. rewrite Hargs, Hl.
    unfold save_config. cbn [config_file with_messages]. rewrite Hw.
    destruct (get_enabled msg); cbn [fst snd].
    + rewrite start_single_task_entries, start_single_task_log.
      cbn [scheduled_messages log logger with_messages].
      by rewrite <- app_assoc.
    + rewrite (proj1 (stop_task_entries _ _)), stop_task_log. done.
Qed.

Lemma unwritable_file_is_never_changed_witness :
  config_file (run (init locked_disk) a_minute_apart) = locked_disk
  ∧ log (fst (add_timed_message "add_timed_msg 123456789 09:00 hello"
                1700000000 "" (init locked_disk)))
    = [(ERROR, SaveFailed OSError); (INFO, TaskStarted "msg_1_1700000000")]
  ∧ scheduled_messages
      (fst (add_timed_message "add_timed_msg 123456789 09:00 hello"
              1700000000 "" (init locked_disk)))
    = [mk_msg_config "msg_1_1700000000" "123456789" "09:00" "hello" (Some true) ""].
Proof.
  destruct (unwritable_file_is_never_changed (init locked_disk) a_minute_apart
              eq_refl) as (Hfile & _ & Hadd & _).
  destruct (Hadd "add_timed_msg 123456789 09:00 hello" "add_timed_msg"
              "123456789" "09:00" "hello" 1700000000 "" eq_refl
              (ex_intro _ _ eq_refl)) as (Hm & _ & Hlog & _).
  split; [exact Hfile|]. split; [exact Hlog|exact Hm].
Defined.

(** ** Commands with too few fields, and unknown ids *)

Lemma cut_at_space_count (s : string) :
  match cut_at_space s with
  | Some (a, b) => count_spaces s = S (count_spaces b)
  | None => count_spaces s = 0%nat
  end.
Proof.
  induction s as [|c s IH]; simpl; [done|].
  destruct (Ascii.eqb c " "%char); simpl; [done|].
  destruct (cut_at_space s) as [[a b]|]; done.
Qed.

Lemma length_split (n : nat) (s : string) :
  length (split n s) = S (Nat.min n (count_spaces s)).
Proof.
  revert s. induction n as [|n IH]; intros s; simpl; [done|].
  pose proof (cut_at_space_count s) as Hc.
  destruct (cut_at_space s) as [[a b]|]; simpl.
  - by rewrite IH, Hc.
  - by rewrite Hc.
Qed.

(** X7.  A command that comes with too few fields gets the usage text back
    and changes nothing: fewer than three spaces for the add command, no
    space for the delete and toggle commands. *)
Theorem short_commands_get_usage (message_str : string) (timestamp : Z)
    (created_at : string) (p : plugin) :
  ((count_spaces message_str < 3)%nat →
   add_timed_message message_str timestamp created_at p = (p, [add_usage]))
  ∧ (count_spaces message_str = 0%nat →
     delete_timed_message message_str p = (p, [del_usage])
     ∧ toggle_timed_message message_str p = (p, [toggle_usage])).
Proof.
  split.
  - intros Hlt. unfold add_timed_message.
    pose proof (length_split 3 message_str) as Hlen.
    destruct (split 3 message_str) as [|? [|? [|? [|? ?]]]]; try done.
    cbn [length] in Hlen. lia.
  - intros Hz. unfold delete_timed_message, toggle_timed_message.
    pose proof (length_split 1 message_str) as Hlen. rewrite Hz in Hlen.
    by destruct (split 1 message_str) as [|? [|? ?]].
Qed.

Lemma short_commands_get_usage_witness :
  add_timed_message "add_timed_msg 123456789 09:00" 1700000000 "" morning_plugin
  = (morning_plugin, [add_usage])
  ∧ delete_timed_message "del_timed_msg" morning_plugin
    = (morning_plugin, [del_usage])
  ∧ toggle_timed_message "toggle_timed_msg" morning_plugin
    = (morning_plugin, [toggle_usage]).
Proof.
  split.
  - apply (proj1 (short_commands_get_usage "add_timed_msg 123456789 09:00"
                    1700000000 "" morning_plugin)).
    simpl. lia.
  - destruct (proj2 (short_commands_get_usage "del_timed_msg" 0 "" morning_plugin)
                eq_refl) as [Hdel _].
    destruct (proj2 (short_commands_get_usage "toggle_timed_msg" 0 "" morning_plugin)
                eq_refl) as [_ Htog].
    by split.
Defined.

Lemma find_first_None (msg_id : string) (l : list msg_config) :
  find_first msg_id l = None ↔ msg_id ∉ map cfg_id l.
Proof.
  induction l as [|m l IH]; simpl.
  - split; [intros _; apply not_elem_of_nil|done].
  - rewrite not_elem_of_cons.
    destruct (String.eqb_spec (cfg_id m) msg_id) as [Heq|Hne].
    + split; [done|]. by intros [Hne _].
    + rewrite IH. split; [by split|by intros [_ ?]].
Qed.

Lemma toggle_first_None (msg_id : string) (l : list msg_config) :
  find_first msg_id l = None → toggle_first msg_id l = None.
Proof.
  induction l as [|m l IH]; simpl; [done|].
  destruct (String.eqb (cfg_id m) msg_id); [done|].
  intros Hf. by rewrite IH.
Qed.

(** X8.  Toggling an id that no entry carries answers that the id was not
    found and returns the plugin as it was. *)
Theorem toggle_unknown_id (message_str command msg_id : string) (p : plugin) :
  split 1 message_str = [command; msg_id] →
  msg_id ∉ map cfg_id (scheduled_messages p) →
  toggle_timed_message message_str p = (p, [not_found msg_id]).
Proof.
  intros Hargs Hnot. unfold toggle_timed_message. rewrite Hargs.
  by rewrite toggle_first_None by (by apply find_first_None).
Qed.

Lemma toggle_unknown_id_witness :
  toggle_timed_message "toggle_timed_msg msg_7_1700000000" morning_plugin
  = (morning_plugin, [not_found "msg_7_1700000000"]).
Proof.
  apply (toggle_unknown_id _ "toggle_timed_msg" "msg_7_1700000000").
  - reflexivity.
  - vm_compute. apply not_elem_of_nil.
Defined.

(** ** Deleting and toggling an entry *)

Lemma find_first_split (msg_id : string) (l : list msg_config) (msg : msg_config) :
  find_first msg_id l = Some msg →
  ∃ before after,
    l = (before ++ msg :: after)%list
    ∧ (msg_id ∉ map cfg_id before)
    ∧ delete_first msg_id l = Some (before ++ after)%list
    ∧ ∀ f, map_first f msg_id l = (before ++ f msg :: after)%list.
Proof.
  induction l as [|m l IH]; simpl; [done|].
  destruct (String.eqb_spec (cfg_id m) msg_id) as [Heq|Hne].
  - intros [= <-]. exists [], l. repeat split; try done. apply not_elem_of_nil.
  - intros Hf. destruct (IH Hf) as (before & after & -> & Hnot & Hdel & Hmap).
    exists (m :: before), after. rewrite Hdel. simpl.
    repeat split; try done.
    + apply not_elem_of_cons. by split.
    + intros f. by rewrite Hmap.
Qed.

(** X9.  Deleting an id some entry carries removes the first entry with
    that id and no other, keeps the order of the rest, cancels the timer of
    the id and drops it from [self.tasks], saves, and reports the deletion;
    afterwards no timer of that id can fire. *)
Theorem delete_known_id (message_str command msg_id : string) (msg : msg_config)
    (p : plugin) :
  split 1 message_str = [command; msg_id] →
  find_first msg_id (scheduled_messages p) = Some msg →
  ∃ before after,
    scheduled_messages p = (before ++ msg :: after)%list
    ∧ (msg_id ∉ map cfg_id before)
    ∧ delete_timed_message message_str p
      = (save_config (with_messages (before ++ after) (stop_task msg_id p)),
         [deleted msg_id])
    ∧ scheduled_messages (fst (delete_timed_message message_str p))
      = (before ++ after)%list
    ∧ tasks (fst (delete_timed_message message_str p)) !! msg_id = None
    ∧ (registered p →
       active_timers msg_id (fst (delete_timed_message message_str p)) = []).
Proof.
  intros Hargs Hfind.
  destruct (find_first_split _ _ _ Hfind) as (before & after & Hl & Hnot & Hdel & _).
  exists before, after.
  assert (Heq : delete_timed_message message_str p
                = (save_config (with_messages (before ++ after) (stop_task msg_id p)),
                   [deleted msg_id])).
  { unfold delete_timed_message. by rewrite Hargs, Hdel. }
  rewrite Heq. cbn [fst].
  destruct (save_config_store (before ++ after) (stop_task msg_id p)) as (Hm & _ & _).
  destruct (save_config_timers (before ++ after) (stop_task msg_id p)) as [Ht Hlt].
  assert (Hgone : tasks (save_config (with_messages (before ++ after)
                                        (stop_task msg_id p))) !! msg_id = None).
  { rewrite Ht. apply stop_task_forgets. }
  repeat split; try done.
  intros Hreg. apply active_timers_none; [|done].
  apply registered_save_config, registered_with_messages.
  by apply registered_stop_task.
Qed.

Lemma delete_known_id_witness :
  ∃ before after,
    scheduled_messages (run (init fresh_disk) a_minute_apart)
    = (before ++ mk_msg_config "msg_2_1700000060" "123456789" "10:00" "two"
                   (Some true) "" :: after)%list
    ∧ scheduled_messages
        (fst (delete_timed_message "del_timed_msg msg_2_1700000060"
                (run (init fresh_disk) a_minute_apart)))
      = (before ++ after)%list
    ∧ active_timers "msg_2_1700000060"
        (fst (delete_timed_message "del_timed_msg msg_2_1700000060"
                (run (init fresh_disk) a_minute_apart))) = [].
Proof.
  destruct (delete_known_id "del_timed_msg msg_2_1700000060" "del_timed_msg"
              "msg_2_1700000060"
              (mk_msg_config "msg_2_1700000060" "123456789" "10:00" "two"
                 (Some true) "")
              (run (init fresh_disk) a_minute_apart) eq_refl eq_refl)
    as (before & after & Hl & _ & _ & Hm & _ & Hnone).
  exists before, after. split; [exact Hl|]. split; [exact Hm|].
  apply Hnone, registered_run, registered_init.
Defined.

(** X10.  Toggling an id some entry carries changes the ['enabled'] of the
    first entry with that id, to the opposite of what it read as, and
    nothing else in the list; the reply names the new state. *)
Theorem toggle_known_id (message_str command msg_id : string) (msg : msg_config)
    (p : plugin) :
  split 1 message_str = [command; msg_id] →
  find_first msg_id (scheduled_messages p) = Some msg →
  ∃ before after,
    scheduled_messages p = (before ++ msg :: after)%list
    ∧ (msg_id ∉ map cfg_id before)
    ∧ scheduled_messages (fst (toggle_timed_message message_str p))
      = (before
         ++ mk_msg_config (cfg_id msg) (cfg_group_id msg) (cfg_time msg)
              (cfg_message msg) (Some (negb (get_enabled msg)))
              (cfg_created_at msg)
         :: after)%list
    ∧ snd (toggle_timed_message message_str p)
      = [if get_enabled msg then now_disabled msg_id else now_enabled msg_id].
Proof.
  intros Hargs Hfind.
  destruct (find_first_split _ _ _ Hfind) as (before & after & Hl & Hnot & _ & Hmap).
  exists before, after. split; [done|]. split; [done|].
  destruct (toggle_timed_message_store _ _ _ _ _ Hargs Hfind) as [Hm _].
  rewrite Hm, (proj1 (save_config_store _ p)), Hmap.
  split; [done|].
  rewrite (toggle_timed_message_found _ _ _ _ _ Hargs Hfind).
  by destruct (get_enabled msg).
Qed.

Lemma toggle_known_id_witness :
  ∃ before after,
    scheduled_messages paused_plugin
    = (before ++ set_enabled false morning_entry :: after)%list
    ∧ scheduled_messages resumed_plugin
      = (before ++ morning_entry :: after)%list
    ∧ snd (toggle_timed_message "toggle_timed_msg msg_1_1700000000" paused_plugin)
      = [now_enabled "msg_1_1700000000"].
Proof.
  destruct (toggle_known_id "toggle_timed_msg msg_1_1700000000" "toggle_timed_msg"
              "msg_1_1700000000" (set_enabled false morning_entry) paused_plugin
              eq_refl eq_refl)
    as (before & after & Hl & _ & Hm & Hreply).
  exists before, after. split; [exact Hl|]. split; [exact Hm|exact Hreply].
Defined.

(** ** Adding and then deleting *)

Lemma add_timed_message_accepted (message_str command group_id time_str message : string)
    (timestamp : Z) (created_at : string) (p : plugin) :
  split 3 message_str = [command; group_id; time_str; message] →
  is_Some (fromisoformat time_str) →
  add_timed_message message_str timestamp created_at p
  = (start_single_task
       (new_entry p group_id time_str message timestamp created_at)
       (save_config
          (with_messages
             (scheduled_messages p
              ++ [new_entry p group_id time_str message timestamp created_at]) p)),
     [added (new_msg_id (length (scheduled_messages p)) timestamp)
            group_id time_str message]).
Proof.
  intros Hargs [t Ht]. unfold add_timed_message. by rewrite Hargs, Ht.
Qed.

Lemma delete_first_snoc (msg_id : string) (l : list msg_config) (x : msg_config) :
  msg_id ∉ map cfg_id l → cfg_id x = msg_id →
  delete_first msg_id (l ++ [x]) = Some l.
Proof.
  intros Hnot Hx. induction l as [|m l IH]; simpl.
  - by rewrite Hx, String.eqb_refl.
  - simpl in Hnot. apply not_elem_of_cons in Hnot as [Hne Hnot].
    destruct (String.eqb_spec (cfg_id m) msg_id) as [Heq|_]; [congruence|].
    by rewrite IH.
Qed.

(** X11.  Adding an entry whose id no entry carries yet, and then deleting
    that id, gives back the list of entries there was, with no timer of the
    id left that can fire; a file that can be written holds that list
    again. *)
Theorem add_then_delete (message_str command group_id time_str message : string)
    (timestamp : Z) (created_at del_str del_command : string) (p : plugin) :
  split 3 message_str = [command; group_id; time_str; message] →
  is_Some (fromisoformat time_str) →
  new_msg_id (length (scheduled_messages p)) timestamp
    ∉ map cfg_id (scheduled_messages p) →
  split 1 del_str
  = [del_command; new_msg_id (length (scheduled_messages p)) timestamp] →
  let msg_id := new_msg_id (length (scheduled_messages p)) timestamp in
  let p1 := fst (add_timed_message message_str timestamp created_at p) in
  let p2 := fst (delete_timed_message del_str p1) in
  scheduled_messages p2 = scheduled_messages p
  ∧ snd (delete_timed_message del_str p1) = [deleted msg_id]
  ∧ tasks p2 !! msg_id = None
  ∧ (registered p → active_timers msg_id p2 = [])
  ∧ (writable (config_file p) = true →
     file (config_file p2) = Some (Document (scheduled_messages p))).
Proof.
  intros Hargs Htime Hfresh Hdel msg_id p1 p2.
  set (new := new_entry p group_id time_str message timestamp created_at).
  set (saved := save_config (with_messages (scheduled_messages p ++ [new]) p)).
  assert (Hp1 : p1 = start_single_task new saved).
  { subst p1. by rewrite (add_timed_message_accepted _ _ _ _ _ _ _ _ Hargs Htime). }
  destruct (save_config_store (scheduled_messages p ++ [new]) p) as (Hs & Hw & _).
  assert (Hm1 : scheduled_messages p1 = (scheduled_messages p ++ [new])%list).
  { rewrite Hp1, (proj1 (store_kept_start_single_task new saved)). exact Hs. }
  assert (Hw1 : writable (config_file p1) = writable (config_file p)).
  { rewrite Hp1, (proj2 (store_kept_start_single_task new saved)). exact Hw. }
  assert (Hd : delete_timed_message del_str p1
               = (save_config (with_messages (scheduled_messages p)
                                 (stop_task msg_id p1)),
                  [deleted msg_id])).
  { unfold delete_timed_message. rewrite Hdel, Hm1.
    by rewrite delete_first_snoc. }
  subst p2. rewrite Hd. cbn [fst snd].
  destruct (save_config_store (scheduled_messages p) (stop_task msg_id p1))
    as (Hs2 & _ & Hf2).
  destruct (save_config_timers (scheduled_messages p) (stop_task msg_id p1))
    as [Ht2 _].
  assert (Hgone : tasks (save_config (with_messages (scheduled_messages p)
                                        (stop_task msg_id p1))) !! msg_id = None).
  { rewrite Ht2. apply stop_task_forgets. }
  split; [done|]. split; [done|]. split; [done|]. split.
  - intros Hreg. apply active_timers_none; [|done].
    apply registered_save_config, registered_with_messages, registered_stop_task.
    rewrite Hp1. by apply registered_start_single_task, registered_save_config,
                          registered_with_messages.
  - intros Hwr. rewrite Hf2.
    rewrite (proj2 (store_kept_stop_task msg_id p1)), Hw1, Hwr. done.
Qed.

Lemma add_then_delete_witness :
  scheduled_messages
    (fst (delete_timed_message "del_timed_msg msg_2_1700000120"
            (fst (add_timed_message "add_timed_msg 123456789 12:30 lunch"
                    1700000120 "" paused_plugin))))
  = scheduled_messages paused_plugin
  ∧ active_timers "msg_2_1700000120"
      (fst (delete_timed_message "del_timed_msg msg_2_1700000120"
              (fst (add_timed_message "add_timed_msg 123456789 12:30 lunch"
                      1700000120 "" paused_plugin)))) = [].
Proof.
  destruct (add_then_delete "add_timed_msg 123456789 12:30 lunch" "add_timed_msg"
              "123456789" "12:30" "lunch" 1700000120 ""
              "del_timed_msg msg_2_1700000120" "del_timed_msg" paused_plugin
              eq_refl (ex_intro _ _ eq_refl))
    as (Hm & _ & _ & Hnone & _).
  - vm_compute. intros H. apply list_elem_of_singleton in H. discriminate.
  - reflexivity.
  - split; [exact Hm|]. apply Hnone, registered_run, registered_init.
Defined.

(** ** What the timer loop delivers *)

Lemma deliveries_send (msg : msg_config) (outcome : result unit)
    (later : list log_record) :
  deliveries (send_timed_message msg outcome ++ later) = S (deliveries later).
Proof. unfold deliveries, send_timed_message. by destruct outcome. Qed.

(** X12.  The loop delivers once in every pass that fires, whether the
    delivery succeeds or not, and never after a pass that was cancelled or
    failed; it is still looping exactly when every pass fired. *)
Theorem one_delivery_per_fire (msg : msg_config) (env : list pass) :
  deliveries (fst (timed_message_loop msg env)) = fired msg env
  ∧ (snd (timed_message_loop msg env) = Looping ↔ fired msg env = length env).
Proof.
  induction env as [|ps env [IHd IHs]]; simpl; [done|].
  destruct (schedule msg (pass_now ps)) as [[slot wait]|e]; [|done].
  destruct (pass_sleep ps); [|done].
  destruct (timed_message_loop msg env) as [later st]. simpl in *.
  split.
  - change (deliveries (send_timed_message msg (pass_send ps) ++ later)
            = S (fired msg env)).
    by rewrite deliveries_send, IHd.
  - rewrite IHs. split; [by intros ->|by intros [= ->]].
Qed.

(** X13.  A timer whose stored time [time.fromisoformat] rejects ends on
    its first pass with the error logged and nothing delivered, whatever
    passes follow; so does a timer whose stored time carries a UTC offset,
    a time the add command accepts. *)
Theorem bad_time_ends_the_loop (msg : msg_config) (ps : pass) (env : list pass) :
  (fromisoformat (cfg_time msg) = None →
   timed_message_loop msg (ps :: env)
   = ([(ERROR, TaskError (cfg_id msg) ValueError)], LoopFailed ValueError))
  ∧ (∀ (t : time) (off : Z),
       fromisoformat (cfg_time msg) = Some t → tzinfo t = Some off →
       timed_message_loop msg (ps :: env)
       = ([(ERROR, TaskError (cfg_id msg) TypeError)], LoopFailed TypeError)).
Proof.
  split.
  - intros Hbad. simpl. unfold schedule. by rewrite Hbad.
  - intros t off Ht Hoff. simpl. unfold schedule. rewrite Ht. simpl.
    by rewrite (next_run_aware _ _ _ Hoff).
Qed.

Lemma bad_time_ends_the_loop_witness :
  fromisoformat "09:00+08:00" = Some (mk_time 9 0 0 0 (Some 28800000000))
  ∧ timed_message_loop
      (mk_msg_config "msg_1_1700000000" "123456789" "09:00+08:00" "hello"
         (Some true) "")
      [mk_pass (at_ymd_hm 2024 1 1 8 0) Elapsed (Ok ());
       mk_pass (at_ymd_hm 2024 1 2 8 0) Elapsed (Ok ())]
    = ([(ERROR, TaskError "msg_1_1700000000" TypeError)], LoopFailed TypeError)
  ∧ timed_message_loop
      (mk_msg_config "msg_1_1700000000" "123456789" "9 o'clock" "hello"
         (Some true) "")
      [mk_pass (at_ymd_hm 2024 1 1 8 0) Elapsed (Ok ())]
    = ([(ERROR, TaskError "msg_1_1700000000" ValueError)], LoopFailed ValueError).
Proof.
  split; [reflexivity|]. split.
  - exact (proj2 (bad_time_ends_the_loop
                    (mk_msg_config "msg_1_1700000000" "123456789" "09:00+08:00"
                       "hello" (Some true) "")
                    (mk_pass (at_ymd_hm 2024 1 1 8 0) Elapsed (Ok ()))
                    [mk_pass (at_ymd_hm 2024 1 2 8 0) Elapsed (Ok ())])
             (mk_time 9 0 0 0 (Some 28800000000)) 28800000000 eq_refl eq_refl).
  - exact (proj1 (bad_time_ends_the_loop
                    (mk_msg_config "msg_1_1700000000" "123456789" "9 o'clock"
                       "hello" (Some true) "")
                    (mk_pass (at_ymd_hm 2024 1 1 8 0) Elapsed (Ok ())) [])
             eq_refl).
Defined.

(** ** How long the loop sleeps *)

Lemma fromisoformat_valid (s : string) (t : time) :
  fromisoformat s = Some t → valid_time t.
Proof.
  unfold fromisoformat.
  destruct (parse_isoformat_time _) as [[[[[hh mm] ss] us] tz]|]; simpl; [|done].
  destruct (tzinfo_from_isoformat_results tz) as [tzi|]; simpl; [|done].
  destruct (_ && _) eqn:Hr; [|done]. intros [= <-].
  repeat (apply andb_true_iff in Hr as [Hr ?]).
  unfold valid_time. simpl.
  repeat match goal with
         | H : (_ <=? _) = true |- _ => apply Z.leb_le in H
         | H : (_ <? _) = true |- _ => apply Z.ltb_lt in H
         end.
  lia.
Qed.

Lemma cmp_tuple_us_of_day (a b : time) :
  valid_time a → valid_time b →
  match cmp_tuple [hour a; minute a; second a; microsecond a]
                  [hour b; minute b; second b; microsecond b] with
  | Lt => us_of_day a < us_of_day b
  | Eq => us_of_day a = us_of_day b
  | Gt => us_of_day b < us_of_day a
  end.
Proof.
  unfold valid_time, us_of_day. intros Ha Hb. simpl.
  destruct (Z.compare_spec (hour a) (hour b));
    destruct (Z.compare_spec (minute a) (minute b));
    destruct (Z.compare_spec (second a) (second b));
    destruct (Z.compare_spec (microsecond a) (microsecond b)); lia.
Qed.

Lemma us_of_day_range (t : time) : valid_time t → 0 ≤ us_of_day t < us_per_day.
Proof. unfold valid_time, us_of_day, us_per_day. lia. Qed.

Lemma time_ge_us_of_day (a b : time) :
  tzinfo a = None → tzinfo b = None → valid_time a → valid_time b →
  time_ge a b = Ok (us_of_day b <=? us_of_day a).
Proof.
  intros Ha Hb Hva Hvb. unfold time_ge, time_cmp. rewrite Ha, Hb.
  pose proof (cmp_tuple_us_of_day a b Hva Hvb) as Hcmp.
  destruct (cmp_tuple _ _); cbn [mbind result_bind]; f_equal; symmetry.
  - apply Z.leb_le. lia.
  - apply Z.leb_gt. lia.
  - apply Z.leb_le. lia.
Qed.

(** X14.  When the clock reading is a naive datetime with its fields in
    range and the loop gets as far as sleeping, it sleeps for more than
    nothing and at most a day, until the stored time on today's or
    tomorrow's date. *)
Theorem wait_is_within_a_day (msg : msg_config) (now next : datetime) (wait : Z) :
  tzinfo (dt_time now) = None →
  valid_time (dt_time now) →
  schedule msg now = Ok (next, wait) →
  0 < wait ≤ us_per_day
  ∧ (dt_date next = dt_date now ∨ dt_date next = dt_date now + 1)
  ∧ fromisoformat (cfg_time msg) = Some (dt_time next).
Proof.
  intros Hnaive Hnow Hs. unfold schedule in Hs.
  destruct (fromisoformat (cfg_time msg)) as [t|] eqn:Ht;
    cbn [mbind result_bind] in Hs; [|done].
  pose proof (fromisoformat_valid _ _ Ht) as Hvt.
  destruct (tzinfo t) as [off|] eqn:Htz.
  { by rewrite (next_run_aware _ _ _ Htz) in Hs. }
  unfold next_run in Hs.
  rewrite (time_ge_us_of_day (time_of now) t eq_refl Htz Hnow Hvt) in Hs.
  cbn [mbind result_bind] in Hs.
  assert (Hus : us_of_day (time_of now) = us_of_day (dt_time now)) by done.
  pose proof (us_of_day_range _ Hnow) as Hr1.
  pose proof (us_of_day_range _ Hvt) as Hr2.
  rewrite Hus in Hs.
  destruct (us_of_day t <=? us_of_day (dt_time now)) eqn:Hle.
  - apply Z.leb_le in Hle. unfold add_days in Hs.
    destruct (_ && _); cbn [mbind result_bind] in Hs; [|done].
    unfold dt_sub, combine, date_of in Hs. simpl in Hs.
    rewrite Htz, Hnaive in Hs. inversion Hs; subst. cbn [dt_date dt_time].
    unfold us_per_day in *. split; [lia|]. auto.
  - apply Z.leb_gt in Hle.
    unfold dt_sub, combine, date_of in Hs. simpl in Hs.
    rewrite Htz, Hnaive in Hs. inversion Hs; subst. cbn [dt_date dt_time].
    unfold us_per_day in *. split; [lia|]. auto.
Qed.

Lemma wait_is_within_a_day_witness :
  schedule morning_entry (at_ymd_hm 2024 1 1 9 0)
  = Ok (at_ymd_hm 2024 1 2 9 0, 86400000000)
  ∧ 0 < 86400000000 ≤ us_per_day.
Proof.
  split; [reflexivity|].
  apply (wait_is_within_a_day morning_entry (at_ymd_hm 2024 1 1 9 0)
           (at_ymd_hm 2024 1 2 9 0) 86400000000); try reflexivity.
  unfold valid_time. simpl. lia.
Defined.

(** ** A timer that keeps firing *)

Lemma schedule_naive (msg : msg_config) (now : datetime) (t : time) :
  fromisoformat (cfg_time msg) = Some t → tzinfo t = None →
  tzinfo (dt_time now) = None →
  MINORDINAL ≤ dt_date now < MAXORDINAL →
  ∃ next wait, schedule msg now = Ok (next, wait).
Proof.
  intros Ht Htz Hnow Hdate. unfold schedule. rewrite Ht.
  cbn [mbind result_bind]. unfold next_run, time_ge, time_cmp.
  cbn [tzinfo time_of]. rewrite Htz. cbn [mbind result_bind].
  assert (Hadd : add_days now 1 = Ok (mk_datetime (dt_date now + 1) (dt_time now))).
  { unfold add_days.
    replace (MINORDINAL <=? dt_date now + 1) with true
      by (symmetry; apply Z.leb_le; lia).
    replace (dt_date now + 1 <=? MAXORDINAL) with true
      by (symmetry; apply Z.leb_le; lia).
    done. }
  destruct (cmp_tuple _ _); rewrite ?Hadd; cbn [mbind result_bind];
    unfold dt_sub, combine, date_of; cbn [dt_time dt_date];
    rewrite Htz, Hnow; cbn [mbind result_bind]; eauto.
Qed.

(** X18.  A timer whose stored time is read as a time of day without UTC
    offset never ends by itself: as long as the clock it reads is a naive
    datetime before the last day of the calendar and its sleeps elapse, it
    delivers once in every pass and is still looping, whether the
    deliveries succeed or not. *)
Theorem naive_time_keeps_firing (msg : msg_config) (t : time) (env : list pass) :
  fromisoformat (cfg_time msg) = Some t → tzinfo t = None →
  Forall (λ ps, tzinfo (dt_time (pass_now ps)) = None
                ∧ MINORDINAL ≤ dt_date (pass_now ps) < MAXORDINAL
                ∧ pass_sleep ps = Elapsed) env →
  snd (timed_message_loop msg env) = Looping
  ∧ deliveries (fst (timed_message_loop msg env)) = length env.
Proof.
  intros Ht Htz Henv. induction Henv as [|ps env (Hnow & Hdate & Hsleep) _ [IHs IHd]];
    [done|].
  destruct (schedule_naive msg (pass_now ps) t Ht Htz Hnow Hdate)
    as (next & wait & Hs).
  cbn [timed_message_loop]. rewrite Hs, Hsleep.
  destruct (timed_message_loop msg env) as [later st]. cbn [fst snd] in *.
  split; [done|].
  change (deliveries (send_timed_message msg (pass_send ps) ++ later)
          = S (length env)).
  by rewrite deliveries_send, IHd.
Qed.

Lemma naive_time_keeps_firing_witness :
  snd (timed_message_loop morning_entry
         [mk_pass (at_ymd_hm 2024 1 1 8 0) Elapsed (Ok ());
          mk_pass (at_ymd_hm 2024 1 1 9 0) Elapsed (Raise OSError);
          mk_pass (at_ymd_hm 2024 1 2 9 0) Elapsed (Ok ())])
  = Looping
  ∧ deliveries
      (fst (timed_message_loop morning_entry
              [mk_pass (at_ymd_hm 2024 1 1 8 0) Elapsed (Ok ());
               mk_pass (at_ymd_hm 2024 1 1 9 0) Elapsed (Raise OSError);
               mk_pass (at_ymd_hm 2024 1 2 9 0) Elapsed (Ok ())]))
    = 3%nat.
Proof.
  apply (naive_time_keeps_firing morning_entry (mk_time 9 0 0 0 None));
    [reflexivity|reflexivity|].
  repeat (apply Forall_cons; split;
          [split; [reflexivity|split; [vm_compute; split; congruence|reflexivity]]|]).
  apply Forall_nil_2.
Defined.

(** ** Enabled entries and running timers *)

Lemma unique_by_id (l : list msg_config) (x y : msg_config) :
  NoDup (map cfg_id l) → x ∈ l → y ∈ l → cfg_id x = cfg_id y → x = y.
Proof.
  induction l as [|m l IH]; simpl; intros Hnd Hx Hy Hid.
  { by apply elem_of_nil in Hx. }
  apply NoDup_cons in Hnd as [Hm Hnd].
  apply elem_of_cons in Hx as [->|Hx], Hy as [->|Hy]; auto.
  - destruct Hm. rewrite Hid. by apply list_elem_of_fmap_2.
  - destruct Hm. rewrite <- Hid. by apply list_elem_of_fmap_2.
Qed.

Lemma timers_follow_start (ts : gmap string nat) (pool : list task)
    (l l' : list msg_config) (x : msg_config) :
  timers_follow ts pool l →
  ts !! cfg_id x = None →
  get_enabled x = true →
  x ∈ l' →
  (∀ msg, msg ∈ l' → msg ∈ l ∨ msg = x) →
  (∀ msg, msg ∈ l → cfg_id msg ≠ cfg_id x → msg ∈ l') →
  timers_follow (<[cfg_id x := length pool]> ts) (pool ++ [mk_task x Running]) l'.
Proof.
  intros [M1 M2] Hnone Hen Hx Hsub Hsup. split.
  - intros msg_id h Hh.
    destruct (decide (cfg_id x = msg_id)) as [<-|Hne].
    + rewrite lookup_insert_eq in Hh. inversion Hh; subst h.
      exists x. rewrite lookup_app_r by lia. by rewrite Nat.sub_diag.
    + rewrite lookup_insert_ne in Hh by done.
      destruct (M1 msg_id h Hh) as (msg & Hin & Hid & Hon & Hpool).
      exists msg. repeat split; try done.
      * apply Hsup; [done|]. by rewrite Hid.
      * rewrite lookup_app_l; [done|]. by eapply lookup_lt_Some.
  - intros msg Hin Hon.
    destruct (decide (cfg_id x = cfg_id msg)) as [<-|Hne].
    + rewrite lookup_insert_eq. eauto.
    + rewrite lookup_insert_ne by done.
      destruct (Hsub msg Hin) as [Hold| ->]; [by apply M2|done].
Qed.

Lemma timers_follow_stop (ts : gmap string nat) (pool : list task)
    (l l' : list msg_config) (msg_id : string) :
  timers_follow ts pool l →
  (∀ msg, msg ∈ l' → get_enabled msg = true → msg ∈ l ∧ cfg_id msg ≠ msg_id) →
  (∀ msg, msg ∈ l → cfg_id msg ≠ msg_id → msg ∈ l') →
  timers_follow (delete msg_id ts)
    (match ts !! msg_id with
     | Some h => alter cancel_task h pool
     | None => pool
     end) l'.
Proof.
  intros [M1 M2] Hsub Hsup. split.
  - intros id0 h0 Hh0.
    destruct (decide (msg_id = id0)) as [->|Hne];
      [by rewrite lookup_delete_eq in Hh0|].
    rewrite lookup_delete_ne in Hh0 by done.
    destruct (M1 id0 h0 Hh0) as (msg & Hin & Hid & Hon & Hpool).
    exists msg. repeat split; try done.
    + apply Hsup; [done|]. by rewrite Hid.
    + destruct (ts !! msg_id) as [h|] eqn:Hh; [|done].
      destruct (M1 msg_id h Hh) as (msg' & _ & Hid' & _ & Hpool').
      rewrite list_lookup_alter_ne; [done|].
      intros ->. rewrite Hpool in Hpool'. inversion Hpool'; subst msg'. congruence.
  - intros msg Hin Hon. destruct (Hsub msg Hin Hon) as [Hold Hne].
    rewrite lookup_delete_ne by done. by apply M2.
Qed.

Lemma stop_task_follows (msg_id : string) (l l' : list msg_config) (p : plugin) :
  timers_follow (tasks p) (loop_tasks p) l →
  (∀ msg, msg ∈ l' → get_enabled msg = true → msg ∈ l ∧ cfg_id msg ≠ msg_id) →
  (∀ msg, msg ∈ l → cfg_id msg ≠ msg_id → msg ∈ l') →
  timers_follow (tasks (stop_task msg_id p)) (loop_tasks (stop_task msg_id p)) l'.
Proof.
  intros Hp Hsub Hsup.
  pose proof (timers_follow_stop _ _ _ l' msg_id Hp Hsub Hsup) as H.
  unfold stop_task. destruct (tasks p !! msg_id) as [h|] eqn:Hh; simpl; [done|].
  by rewrite delete_id in H.
Qed.

Lemma start_single_task_follows (x : msg_config) (l l' : list msg_config) (p : plugin) :
  timers_follow (tasks p) (loop_tasks p) l →
  tasks p !! cfg_id x = None →
  get_enabled x = true →
  x ∈ l' →
  (∀ msg, msg ∈ l' → msg ∈ l ∨ msg = x) →
  (∀ msg, msg ∈ l → cfg_id msg ≠ cfg_id x → msg ∈ l') →
  timers_follow (tasks (start_single_task x p))
                (loop_tasks (start_single_task x p)) l'.
Proof.
  intros Hp Hnone Hen Hx Hsub Hsup.
  unfold start_single_task. rewrite Hnone. simpl.
  by apply (timers_follow_start _ _ l).
Qed.

Lemma elem_of_middle (before after : list msg_config) (m x : msg_config) :
  x ∈ (before ++ m :: after)%list ↔ x = m ∨ x ∈ (before ++ after)%list.
Proof. rewrite !elem_of_app, elem_of_cons. tauto. Qed.

Lemma middle_ids (before after : list msg_config) (m x : msg_config) :
  NoDup (map cfg_id (before ++ m :: after)) →
  x ∈ (before ++ after)%list → cfg_id x ≠ cfg_id m.
Proof.
  rewrite map_app. simpl. intros Hnd Hx Heq.
  apply NoDup_app in Hnd as (_ & Hdisj & Hnd).
  apply NoDup_cons in Hnd as [Hm _].
  apply elem_of_app in Hx as [Hx|Hx].
  - apply (Hdisj (cfg_id x)); [by apply list_elem_of_fmap_2|].
    rewrite Heq. apply list_elem_of_here.
  - apply Hm. rewrite <- Heq. by apply list_elem_of_fmap_2.
Qed.

Lemma list_timed_messages_state (p : plugin) : fst (list_timed_messages p) = p.
Proof. unfold list_timed_messages. by destruct (scheduled_messages p). Qed.

Lemma follows_step (p : plugin) (o : op) :
  is_command o = true →
  NoDup (ids p) →
  (∀ m t c, o = Add m t c →
            new_msg_id (length (scheduled_messages p)) t ∉ ids p) →
  timers_follow_entries p →
  timers_follow_entries (step p o).
Proof.
  intros Hcmd Hnd Hfresh Hp. unfold timers_follow_entries in *.
  set (l := scheduled_messages p) in *.
  assert (Hsaved : ∀ l1 q, tasks q = tasks p → loop_tasks q = loop_tasks p →
            timers_follow (tasks (save_config (with_messages l1 q)))
                          (loop_tasks (save_config (with_messages l1 q))) l).
  { intros l1 q Ht Hl. destruct (save_config_timers l1 q) as [-> ->].
    by rewrite Ht, Hl. }
  destruct o; try done; cbn [step].
  - (* add *)
    unfold add_timed_message. fold l.
    destruct (split 3 message_str) as [|? [|group_id [|time_str [|message ?]]]];
      try done.
    destruct (fromisoformat time_str); [|done]. cbn [fst].
    set (x := mk_msg_config _ _ _ _ _ _).
    set (saved := save_config (with_messages (l ++ [x]) p)).
    rewrite (proj1 (store_kept_start_single_task x saved)).
    unfold saved at 3. rewrite (proj1 (save_config_store (l ++ [x]) p)).
    assert (Hnew : cfg_id x ∉ map cfg_id l) by (by eapply Hfresh).
    apply (start_single_task_follows x l).
    + by apply Hsaved.
    + unfold saved. rewrite (proj1 (save_config_timers _ p)).
      destruct (tasks p !! cfg_id x) as [h|] eqn:Hh; [|done].
      destruct (proj1 Hp _ _ Hh) as (msg & Hin & Hid & _).
      destruct Hnew. rewrite <- Hid. by apply list_elem_of_fmap_2.
    + reflexivity.
    + apply elem_of_app. right. apply list_elem_of_here.
    + intros msg Hin. apply elem_of_app in Hin as [Hin|Hin]; [by left|].
      right. by apply list_elem_of_singleton in Hin.
    + intros msg Hin _. apply elem_of_app. by left.
  - by rewrite list_timed_messages_state.
  - (* delete *)
    unfold delete_timed_message.
    destruct (split 1 message_str) as [|? [|msg_id ?]]; try done.
    destruct (find_first msg_id l) as [m|] eqn:Hfind.
    + destruct (find_first_split _ _ _ Hfind)
        as (before & after & Hl & Hnot & Hdel & _).
      fold l. rewrite Hdel. cbn [fst].
      rewrite (proj1 (save_config_timers _ _)), (proj2 (save_config_timers _ _)),
              (proj1 (save_config_store _ _)).
      pose proof (find_first_id _ _ _ Hfind) as Hid.
      unfold ids in Hnd. fold l in Hnd. rewrite Hl in Hnd.
      apply (stop_task_follows msg_id l); [done| |].
      * intros msg Hin _. split.
        -- rewrite Hl. apply elem_of_middle. by right.
        -- rewrite <- Hid. by eapply middle_ids.
      * intros msg Hin Hne. rewrite Hl in Hin.
        apply elem_of_middle in Hin as [->|Hin]; [done|done].
    + fold l. rewrite delete_first_None by (by apply find_first_None). done.
  - (* toggle *)
    unfold toggle_timed_message.
    destruct (split 1 message_str) as [|? [|msg_id ?]]; try done.
    destruct (find_first msg_id l) as [m|] eqn:Hfind.
    + destruct (find_first_split _ _ _ Hfind)
        as (before & after & Hl & Hnot & _ & Hmap).
      pose proof (find_first_id _ _ _ Hfind) as Hid.
      fold l. rewrite (toggle_first_find _ _ _ Hfind), Hmap.
      unfold ids in Hnd. fold l in Hnd. rewrite Hl in Hnd.
      set (l' := (before ++ flip_enabled m :: after)%list).
      replace (get_enabled (flip_enabled m)) with (negb (get_enabled m)) by done.
      destruct (get_enabled m) eqn:Hon; cbn [negb fst].
      * rewrite (proj1 (store_kept_stop_task msg_id _)),
                (proj1 (save_config_store _ _)).
        apply (stop_task_follows msg_id l); [by apply Hsaved| |].
        -- intros msg Hin Hen. apply elem_of_middle in Hin as [->|Hin].
           { unfold flip_enabled, get_enabled in Hen. simpl in Hen.
             unfold get_enabled in Hon. rewrite Hon in Hen. done. }
           split; [rewrite Hl; apply elem_of_middle; by right|].
           rewrite <- Hid. by eapply middle_ids.
        -- intros msg Hin Hne. rewrite Hl in Hin.
           apply elem_of_middle in Hin as [->|Hin]; [done|].
           apply elem_of_middle. by right.
      * rewrite (proj1 (store_kept_start_single_task _ _)),
                (proj1 (save_config_store _ _)).
        apply (start_single_task_follows (flip_enabled m) l); [by apply Hsaved| | | | |].
        -- rewrite (proj1 (save_config_timers _ p)).
           change (cfg_id (flip_enabled m)) with (cfg_id m).
           destruct (tasks p !! cfg_id m) as [h|] eqn:Hh; [|done].
           destruct (proj1 Hp _ _ Hh) as (msg & Hin & Hidm & Hen & _).
           assert (msg = m).
           { apply (unique_by_id l); [by rewrite Hl|done| |done].
             rewrite Hl. apply elem_of_middle. by left. }
           subst msg. congruence.
        -- unfold flip_enabled, get_enabled. simpl.
           unfold get_enabled in Hon. by rewrite Hon.
        -- apply elem_of_middle. by left.
        -- intros msg Hin. apply elem_of_middle in Hin as [->|Hin]; [by right|].
           left. rewrite Hl. apply elem_of_middle. by right.
        -- intros msg Hin Hne. rewrite Hl in Hin.
           apply elem_of_middle in Hin as [->|Hin]; [done|].
           apply elem_of_middle. by right.
    + fold l. rewrite (toggle_first_None _ _ Hfind). done.
Qed.

Lemma follows_run (ops : list op) (T : list Z) (p : plugin) :
  forallb is_command ops = true →
  NoDup (add_seconds ops) →
  (∀ t, t ∈ add_seconds ops → t ∉ T) →
  stamped T (ids p) → stamped T (stored_ids p) →
  timers_follow_entries p → registered p →
  timers_follow_entries (run p ops) ∧ registered (run p ops)
  ∧ NoDup (ids (run p ops)).
Proof.
  revert T p. induction ops as [|o ops IH];
    intros T p Hcmd Hnd Hfresh Hi Hs Hp Hreg; simpl.
  { split; [done|]. split; [done|]. by destruct Hi. }
  simpl in Hcmd. apply andb_true_iff in Hcmd as [Ho Hops].
  unfold add_seconds in Hnd, Hfresh. simpl in Hnd, Hfresh.
  apply NoDup_app in Hnd as (_ & Hdisj & Hnd').
  assert (Hstep : timers_follow_entries (step p o)).
  { apply follows_step; [done|by destruct Hi| |done].
    intros m t c -> Hin. destruct Hi as [_ Hall].
    destruct (Hall _ Hin) as (k & t' & Heq & Ht').
    apply new_msg_id_inj in Heq as [_ <-].
    apply (Hfresh t); [|done]. simpl. apply list_elem_of_here. }
  destruct (stamped_step T p o) as [Hi' Hs']; [|done|done|].
  { intros t Ht. apply Hfresh, elem_of_app. auto. }
  apply (IH (seconds_of o ++ T)%list); try done.
  - intros t Ht Hin. apply elem_of_app in Hin as [Hin|Hin].
    + by apply (Hdisj t).
    + apply (Hfresh t); [|done]. apply elem_of_app. auto.
  - by apply registered_step.
Qed.

Lemma initialize_without_entries (d : disk) :
  stored_ids (init d) = [] →
  scheduled_messages (initialize (init d)) = []
  ∧ tasks (initialize (init d)) = ∅.
Proof.
  intros Hst. unfold stored_ids in Hst. simpl in Hst.
  assert (Hload : scheduled_messages (load_config (init d)) = []
                  ∧ tasks (load_config (init d)) = ∅).
  { unfold load_config, save_config. simpl.
    destruct (file d) as [[|entries]|]; simpl.
    - done.
    - split; [|done]. by destruct entries.
    - by destruct (writable d). }
  destruct Hload as [Hm Ht]. rewrite initialize_entries. split; [done|].
  unfold initialize, start_all_tasks. rewrite Hm. simpl. exact Ht.
Qed.

(** X15.  On a plugin initialized over a file with no entries, whatever add,
    list, delete and toggle commands follow, as long as no two adds read the
    same second: of the tasks started for the id of an entry that reads as
    enabled, exactly one has not been cancelled, the one started with the
    entry as it now is; of the tasks started for a disabled entry, or for
    an id that no entry carries, all have been cancelled.  (A run of
    commands has no [LoopReturns]: here [Running] says that the task was
    not cancelled, not that the loop inside it is still going.) *)
Theorem enabled_entries_have_the_timers (d : disk) (ops : list op)
    (msg : msg_config) (msg_id : string) :
  stored_ids (init d) = [] →
  forallb is_command ops = true →
  NoDup (add_seconds ops) →
  (msg ∈ scheduled_messages (run (initialize (init d)) ops) →
   active_timers (cfg_id msg) (run (initialize (init d)) ops)
   = if get_enabled msg then [mk_task msg Running] else [])
  ∧ (msg_id ∉ ids (run (initialize (init d)) ops) →
     active_timers msg_id (run (initialize (init d)) ops) = []).
Proof.
  intros Hst Hcmd Hsec.
  destruct (initialize_without_entries d Hst) as [Hm0 Ht0].
  destruct (stamped_step [] (init d) Initialize) as [Hi0 Hs0].
  { intros t Ht. by apply elem_of_nil in Ht. }
  { apply stamped_nil. }
  { rewrite Hst. apply stamped_nil. }
  destruct (follows_run ops [] (initialize (init d))) as ([M1 M2] & Hreg & Hnd);
    try done.
  { intros t _ Hin. by apply elem_of_nil in Hin. }
  { unfold timers_follow_entries. rewrite Hm0, Ht0. split.
    - intros i h Hh. by rewrite lookup_empty in Hh.
    - intros m Hin. by apply elem_of_nil in Hin. }
  { apply (registered_step (init d) Initialize), registered_init. }
  set (p := run (initialize (init d)) ops) in *.
  split.
  - intros Hin. destruct (get_enabled msg) eqn:Hon.
    + destruct (M2 msg Hin Hon) as [h Hh].
      destruct (M1 _ _ Hh) as (msg' & Hin' & Hid & _ & Hpool).
      assert (msg' = msg) by (by apply (unique_by_id (scheduled_messages p))).
      subst msg'. apply active_timers_one; [done| |].
      * unfold timer_of. by rewrite Hh.
      * unfold is_active. simpl. by rewrite String.eqb_refl.
    + apply active_timers_none; [done|].
      destruct (tasks p !! cfg_id msg) as [h|] eqn:Hh; [|done].
      destruct (M1 _ _ Hh) as (msg' & Hin' & Hid & Hen & _).
      assert (msg' = msg) by (by apply (unique_by_id (scheduled_messages p))).
      subst msg'. congruence.
  - intros Hnot. apply active_timers_none; [done|].
    destruct (tasks p !! msg_id) as [h|] eqn:Hh; [|done].
    destruct (M1 _ _ Hh) as (msg' & Hin' & Hid & _).
    destruct Hnot. rewrite <- Hid. by apply list_elem_of_fmap_2.
Qed.

Lemma enabled_entries_have_the_timers_witness :
  active_timers "msg_2_1700000060"
    (run (initialize (init fresh_disk)) a_minute_apart_then_paused) = []
  ∧ active_timers "msg_2_1700000120"
      (run (initialize (init fresh_disk)) a_minute_apart_then_paused)
    = [mk_task (mk_msg_config "msg_2_1700000120" "123456789" "11:00" "three"
                  (Some true) "") Running]
  ∧ active_timers "msg_1_1700000000"
      (run (initialize (init fresh_disk)) a_minute_apart_then_paused) = [].
Proof.
  assert (Hsec : NoDup (add_seconds a_minute_apart_then_paused)).
  { vm_compute.
    repeat (apply NoDup_cons; split;
            [rewrite list_elem_of_In; simpl; intuition discriminate|]).
    apply NoDup_nil_2. }
  destruct (enabled_entries_have_the_timers fresh_disk a_minute_apart_then_paused
              (mk_msg_config "msg_2_1700000060" "123456789" "10:00" "two"
                 (Some false) "")
              "msg_1_1700000000" eq_refl eq_refl Hsec) as [Hoff Hgone].
  destruct (enabled_entries_have_the_timers fresh_disk a_minute_apart_then_paused
              (mk_msg_config "msg_2_1700000120" "123456789" "11:00" "three"
                 (Some true) "")
              "msg_1_1700000000" eq_refl eq_refl Hsec) as [Hon _].
  split; [|split].
  - apply Hoff. vm_compute. apply list_elem_of_here.
  - apply Hon. vm_compute. apply list_elem_of_further, list_elem_of_here.
  - apply Hgone.
    replace (ids (run (initialize (init fresh_disk)) a_minute_apart_then_paused))
      with ["msg_2_1700000060"; "msg_2_1700000120"] by (by vm_compute).
    rewrite list_elem_of_In. simpl. intuition discriminate.
Defined.

(** X16.  After an add command that is accepted, exactly one task of the id
    it built is [Running], the one created for the new entry: the task is
    created and nothing has cancelled it (whether its loop goes on is the
    matter of X13 and X18).  The new entry is the last of the list, and a
    file that can be written holds the new list. *)
Theorem add_starts_one_timer (message_str command group_id time_str message : string)
    (timestamp : Z) (created_at : string) (p : plugin) :
  split 3 message_str = [command; group_id; time_str; message] →
  is_Some (fromisoformat time_str) →
  registered p →
  let msg := new_entry p group_id time_str message timestamp created_at in
  let p' := fst (add_timed_message message_str timestamp created_at p) in
  active_timers (cfg_id msg) p' = [mk_task msg Running]
  ∧ scheduled_messages p' = (scheduled_messages p ++ [msg])%list
  ∧ (writable (config_file p) = true →
     file (config_file p') = Some (Document (scheduled_messages p ++ [msg]))).
Proof.
  intros Hargs Htime Hreg msg p'.
  set (saved := save_config (with_messages (scheduled_messages p ++ [msg]) p)).
  assert (Hp' : p' = start_single_task msg saved).
  { subst p'. by rewrite (add_timed_message_accepted _ _ _ _ _ _ _ _ Hargs Htime). }
  destruct (save_config_store (scheduled_messages p ++ [msg]) p) as (Hs & _ & Hf).
  rewrite Hp'. split; [|split].
  - apply active_timers_one.
    + by apply registered_start_single_task, registered_save_config,
               registered_with_messages.
    + apply start_single_task_timer.
    + unfold is_active. simpl. by rewrite String.eqb_refl.
  - by rewrite (proj1 (store_kept_start_single_task msg saved)).
  - intros Hw. rewrite (proj2 (store_kept_start_single_task msg saved)).
    fold saved in Hf. by rewrite Hf, Hw.
Qed.

Lemma add_starts_one_timer_witness :
  active_timers "msg_3_1700000180"
    (fst (add_timed_message "add_timed_msg 123456789 12:00 four" 1700000180 ""
            (run (init fresh_disk) a_minute_apart)))
  = [mk_task (mk_msg_config "msg_3_1700000180" "123456789" "12:00" "four"
                (Some true) "") Running].
Proof.
  exact (proj1 (add_starts_one_timer "add_timed_msg 123456789 12:00 four"
                  "add_timed_msg" "123456789" "12:00" "four" 1700000180 ""
                  (run (init fresh_disk) a_minute_apart) eq_refl
                  (ex_intro _ _ eq_refl)
                  (registered_run a_minute_apart _ (registered_init fresh_disk)))).
Defined.
